(* ===== verification/_CoqProject ===== *)
-Q . S2P
Prelude.v
ArtilleryMath.v
SolverReal.v
Float32.v
RefLibm.v
Solver32.v
Registry.v
MapInput.v
MapReal.v
Frame.v
Run.v
