(* ===== verification/Prelude.v ===== *)
(** * Verification of ArtilleryMaster_Build2
      (src/ArtilleryMaster_Build2/ArtilleryMaster_Build2.cpp)

    ** The program

    A single C++ file: an SFML window with an ImGui panel that computes
    indirect-fire solutions between two points picked on a map and keeps a
    list of named Target Registration Points (TRPs).  Its parts:
    - [struct ArtilleryMath] (lines 9-28): four static [float] functions,
      [distance] ([std::hypot]), [azimuth] ([std::atan2], degrees),
      [elevation] (closed-form inversion of the flat-ground range equation,
      sentinel 0 when the discriminant [root] is negative, [+ sqrt] root for
      [highArc = false]) and [timeOfFlight] ([dist / (v cos angle)]);
    - [struct TRP] (lines 31-34) and the vector [trps] of [main], appended to
      by the "Save TRP" button under [userSet && targetSet &&
      strlen(trpName) > 0] (which then clears the 64-byte name buffer) and
      read back by one button per entry (lines 121-138);
    - the event loop of [main] (lines 54-97): left/right presses inside the
      600x600-pixel map area set the user/target positions, the middle
      button pans the [sf::View], the wheel zooms it, [Closed] closes the
      window;
    - the rest of the frame (lines 99-169): the six displayed values, the
      velocity and name edits, and the drawing of grid and markers.
    The components interact only through [main]'s locals: the event loop
    writes the positions, the solver reads them with [velocity] every frame,
    the registry copies them on save and writes them back on selection.

    ** Files (in the order of _CoqProject)

    - [Prelude] (this file): the class [FloatOps] of the [float] operations
      the program uses (arithmetic, [<], int-to-float conversion, decimal
      literals, and the <cmath> functions sqrt, hypot, atan2, atan, cos),
      its notations in [fl_scope], [sf::Vector2] as [Vector2], the hint
      database [artillery], the Ltac [split_guards] and list lemmas shared
      by the registry proofs.
    - [ArtilleryMath]: [struct ArtilleryMath] and the solution block of
      [main] ([firing_solution]), written once over any [FloatOps]
      instance, with the operand order and association of the source.
    - [SolverReal]: the instance of [FloatOps] on the reals (exact
      arithmetic, the mathematical sqrt/atan/cos, literals at their decimal
      values, so [3.14159265] and not pi) and the physics of the formulas:
      C1 the returned elevation and time of flight put the projectile on the
      target for both arcs; C2 [elevation] is 0 exactly beyond the maximal
      range [v^2/g]; C3 the arc labelled "low" is the steep one.
    - [Float32]: IEEE-754 binary32 as Stdlib's SpecFloat at precision 24 and
      maximal exponent 128 (the [float] of SFML's x86-64 targets, round to
      nearest even); the C library behind the class [Libm] with the C11
      Annex F laws it must satisfy in the class [AnnexF]; lemmas on the
      symmetry of rounding.
    - [RefLibm]: a binary32 C library (special values first, polynomials on
      reduced arguments) satisfying [AnnexF]; it makes the Annex F
      assumptions a satisfiable interface and lets witnesses compute.
    - [Solver32]: the solver as the program runs it: C4 origin equal to
      target gives distance and azimuth +0 but elevations 90.0f and NaN; C5
      [distance] is symmetric bit for bit.
    - [Registry]: [struct TRP], the save button ([save_trp]), the loop of
      entry buttons ([select_loop]), the name buffer, and [RegistrySpec], the
      registry of spec section 4.2; C7 save/select round trip, C8 refinement
      of the spec's save and select, C9 the loop ends with the last clicked
      entry, C10 the code rejects only the empty name where the spec rejects
      every blank one.
    - [MapInput]: the event loop as [process_event] / [poll_events] on the
      map state, with [window.mapPixelToCoords] as a section parameter (and
      SFML's formula for it); C12 positions change only by clicks in the map
      area, C13 the panning flag's automaton.
    - [MapReal]: the event loop at the real instance with SFML's mapping for
      the 1200x700 window: C16 panning keeps the grabbed world point under
      the cursor; C17 at the initial view the accepted clicks reach only
      world abscissas below 300, the left half of the drawn grid (the view
      is stretched over the whole window, the area test is in pixels); C18
      the wheel scales the map about the view's center, not the cursor.
    - [Frame]: one iteration of [main]'s loop ([frame]) in source order,
      [main_loop] over a list of per-frame inputs, the initial state and the
      reachable states; C6 the invariant of reachable states (stored names
      non-empty and within 63 characters, a non-empty registry only with
      both positions set), C11 the registry is append-only, C14 markers are
      drawn exactly for designated positions, C15 [Closed] ends the loop
      after the current frame, C19 a velocity typed in a frame is displayed
      with from the next frame on, C20 a TRP saved in one frame is restored
      by its button after any number of further frames, whatever the clicks
      of the recalling frame did; and the grid loop terminates with 44
      vertices ([grid_loop_terminates]).
    - [Run]: [main] executed on binary32 with [RefLibm] and the 1200x700
      window: the spec's scenario 3 done through the UI, a velocity edit, a
      save followed by a recall, and the witnesses of the [Frame] theorems.

    ** Bounds, fuel and what is not modelled

    [main_loop] consumes one input per frame, so its recursion is structural;
    the grid loop [for (int i = 0; i <= 600; i += 60)] is written with fuel
    12, which [Frame.grid_loop_terminates] shows is enough (11 passes and the failing test, the same
    result for every larger fuel).  The name buffer holds at most 63
    characters ([ImGui::InputText] with size 64).  The SFML and ImGui
    libraries are not modelled: what the widgets return in a frame is the
    frame's input, the drawing is a list of draw calls, and
    [window.mapPixelToCoords] is a parameter (its window size changes with
    resizing).  [ImGui::SFML::ProcessEvent] and the unused local [zoom] are
    not modelled.  The C library's transcendental functions are known only
    through their Annex F laws; the theorems over binary32 hold for every
    library that satisfies them.
*)

From Stdlib Require Import ZArith List Bool Lia.
Import ListNotations.

(** ** The float interface

    One record gathers every operation of C++ [float] that the program uses.
    [flit n k] is the literal whose decimal value is [n * 10^-k] (e.g.
    [9.81f] is [flit 981 2]); [fof_int] is the implicit int-to-float
    conversion; [fltb] is the built-in [<] (false when an operand is NaN).
    The transcendental members are the float overloads of <cmath>. *)
Class FloatOps (F : Type) := {
  fadd : F -> F -> F;
  fsub : F -> F -> F;
  fmul : F -> F -> F;
  fdiv : F -> F -> F;
  fltb : F -> F -> bool;
  fof_int : Z -> F;
  flit : Z -> nat -> F;
  fsqrt : F -> F;
  fhypot : F -> F -> F;
  fatan2 : F -> F -> F;
  fatan : F -> F;
  fcos : F -> F
}.

Declare Scope fl_scope.
Delimit Scope fl_scope with fl.
Notation "x + y" := (fadd x y) : fl_scope.
Notation "x - y" := (fsub x y) : fl_scope.
Notation "x * y" := (fmul x y) : fl_scope.
Notation "x / y" := (fdiv x y) : fl_scope.
Notation "x <? y" := (fltb x y) : fl_scope.

(** [sf::Vector2<T>]: [Vector2 F] is [sf::Vector2f], [Vector2 Z] is
    [sf::Vector2i]. *)
Record Vector2 (T : Type) := mkVector2 { vx : T; vy : T }.
Arguments mkVector2 {T} _ _.
Arguments vx {T} _.
Arguments vy {T} _.

Create HintDb artillery.
Create Rewrite HintDb artillery.

(** ** Shared list lemmas

    The registry is a [std::vector] grown by [push_back] and read by index;
    these are the facts about [l ++ [x]] and [nth_error] its proofs share. *)
Section ListFacts.
Context {A : Type}.

Lemma nth_error_snoc_last (l : list A) (x : A) :
  nth_error (l ++ [x]) (length l) = Some x.
Proof. rewrite nth_error_app2 by lia. now rewrite Nat.sub_diag. Qed.

Lemma nth_error_snoc_prefix (l : list A) (x : A) i :
  i < length l -> nth_error (l ++ [x]) i = nth_error l i.
Proof. intros Hi. now apply nth_error_app1. Qed.

Lemma length_snoc (l : list A) (x : A) : length (l ++ [x]) = S (length l).
Proof. rewrite length_app. simpl. lia. Qed.

Lemma Forall_snoc (P : A -> Prop) (l : list A) (x : A) :
  Forall P l -> P x -> Forall P (l ++ [x]).
Proof. intros Hl Hx. apply Forall_app. auto. Qed.
End ListFacts.

#[export] Hint Resolve nth_error_snoc_last Forall_snoc : artillery.
#[export] Hint Rewrite @length_snoc : artillery.

(** [if b then x else x] collapses; used when both branches of a guard of
    the code produce the same field. *)
Lemma if_same {A : Type} (b : bool) (x : A) : (if b then x else x) = x.
Proof. now destruct b. Qed.
#[export] Hint Rewrite @if_same : artillery.

(** Splits every boolean guard of the goal, the way the code's [if]s split. *)
Ltac split_guards :=
  repeat match goal with
         | |- context [if ?b then _ else _] =>
             let E := fresh "E" in destruct b eqn:E
         end.
