(* ===== verification/ArtilleryMath.v ===== *)
(** * ArtilleryMath: [struct ArtilleryMath] and the firing-solution block of [main]

    The four static functions of [struct ArtilleryMath] (source lines 9-28)
    and the block of [main] that calls them once per frame (lines 106-114),
    written once over any [FloatOps] instance.  Operand order and
    association follow the source: [g * (g * dist * dist)] is
    [g * ((g * dist) * dist)], [angle * 180.0f / 3.14159265f] is
    [(angle * 180) / pi], and the [int] constants of the source ([0], [-1],
    [1]) go through the int-to-float conversion [fof_int] as in C++.
    [timeOfFlight] receives [gravity] and does not use it, as in the source. *)

From Stdlib Require Import ZArith.
From S2P Require Import Prelude.

Section ArtilleryMath.
Context {F : Type} {FO : FloatOps F}.
Local Open Scope fl_scope.

(** The literals [9.81f], [180.0f] and [3.14159265f]. *)
Definition gravity_default : F := flit 981 2.
Definition c180 : F := flit 180 0.
Definition cpi : F := flit 314159265 8.

Definition distance (a b : Vector2 F) : F :=
  fhypot (vx b - vx a) (vy b - vy a).

Definition azimuth (a b : Vector2 F) : F :=
  fatan2 (vx b - vx a) (vy b - vy a) * c180 / cpi.

(** The discriminant [root] of the source. *)
Definition elevation_root (dist velocity gravity : F) : F :=
  let v2 := velocity * velocity in
  let g := gravity in
  v2 * v2 - g * (g * dist * dist).

Definition elevation (dist velocity gravity : F) (highArc : bool) : F :=
  let v2 := velocity * velocity in
  let g := gravity in
  let root := v2 * v2 - g * (g * dist * dist) in
  if root <? fof_int 0 then fof_int 0
  else
    let angle :=
      fatan ((v2 + fof_int (if highArc then (-1)%Z else 1%Z) * fsqrt root)
             / (g * dist)) in
    angle * c180 / cpi.

Definition timeOfFlight (dist velocity angle gravity : F) : F :=
  let rad := angle * cpi / c180 in
  dist / (velocity * fcos rad).

(** The six values displayed by the "Artillery Data" window
    ([float dist = 0, az = 0, elevLow = 0, ...], lines 106-114). *)
Record FiringSolution := mkSolution {
  sol_dist : F; sol_az : F;
  sol_elevLow : F; sol_elevHigh : F;
  sol_tofLow : F; sol_tofHigh : F }.

Definition zero_solution : FiringSolution :=
  let z := fof_int 0 in mkSolution z z z z z z.

Definition firing_solution (userSet targetSet : bool) (userPos targetPos : Vector2 F)
    (velocity : F) : FiringSolution :=
  if andb userSet targetSet then
    let dist := distance userPos targetPos in
    let az := azimuth userPos targetPos in
    let elevLow := elevation dist velocity gravity_default false in
    let elevHigh := elevation dist velocity gravity_default true in
    let tofLow := timeOfFlight dist velocity elevLow gravity_default in
    let tofHigh := timeOfFlight dist velocity elevHigh gravity_default in
    mkSolution dist az elevLow elevHigh tofLow tofHigh
  else zero_solution.

End ArtilleryMath.

Arguments FiringSolution F : clear implicits.
