(* ===== verification/SolverReal.v ===== *)
(** * SolverReal: [struct ArtilleryMath] in exact arithmetic

    The same definitions of [ArtilleryMath] at an instance of [FloatOps] on
    the real numbers: every operation exact, [std::sqrt], [std::atan] and
    [std::cos] the mathematical functions, [std::atan2] the usual quadrant
    definition and [std::hypot] the Euclidean norm.  The literals keep the
    values written in the source ([3.14159265], not pi), so the theorems
    check the formulas as written: the angle returned by [elevation] with
    the time returned by [timeOfFlight] is a trajectory through the target,
    the discriminant is negative exactly beyond the maximal range [v^2/g] (i.e. when [v^2 < g d]),
    and the arc called "low" by the code is the steep one. *)

From Stdlib Require Import Reals Lra.
From S2P Require Import Prelude ArtilleryMath.
Local Open Scope R_scope.

Definition Rltb (x y : R) : bool := if Rlt_dec x y then true else false.

Definition Ratan2 (y x : R) : R :=
  if Rlt_dec 0 x then atan (y / x)
  else if Rlt_dec x 0 then
    (if Rle_dec 0 y then atan (y / x) + PI else atan (y / x) - PI)
  else if Rlt_dec 0 y then PI / 2
  else if Rlt_dec y 0 then - (PI / 2)
  else 0.

#[export] Instance real_ops : FloatOps R := {
  fadd := Rplus; fsub := Rminus; fmul := Rmult; fdiv := Rdiv;
  fltb := Rltb; fof_int := IZR; flit n k := IZR n / 10 ^ k;
  fsqrt := sqrt; fhypot x y := sqrt (x * x + y * y);
  fatan2 := Ratan2; fatan := atan; fcos := cos
}.

(** The projectile leaves the origin at speed [v] and elevation [rad] and
    moves under gravity [g]; its position at time [t]. *)
Definition traj_x (v rad t : R) : R := v * cos rad * t.
Definition traj_y (v g rad t : R) : R := v * sin rad * t - g * t ^ 2 / 2.

Lemma Rltb_true x y : Rltb x y = true <-> x < y.
Proof. unfold Rltb. destruct (Rlt_dec x y); split; congruence || lra. Qed.

Lemma Rltb_false x y : Rltb x y = false <-> y <= x.
Proof. unfold Rltb. destruct (Rlt_dec x y); split; congruence || lra. Qed.

Lemma cpi_pos : 0 < (cpi : R).
Proof. cbn. apply Rdiv_lt_0_compat; lra. Qed.

Lemma c180_pos : 0 < (c180 : R).
Proof. cbn. lra. Qed.

Lemma root_real d v g : elevation_root d v g = (v * v) ^ 2 - (g * d) ^ 2.
Proof. cbn. ring. Qed.

(** The discriminant is nonnegative exactly within the maximal range. *)
Lemma root_nonneg_iff d v g :
  0 < d -> 0 < g -> (0 <= elevation_root d v g <-> g * d <= v * v).
Proof.
  intros Hd Hg. rewrite root_real.
  assert (0 < g * d) by nra. assert (0 <= v * v) by nra.
  split; intros; nra.
Qed.

(** Converting the returned degrees back to radians, as [timeOfFlight]
    does, gives back the arctangent: both conversions use the same
    constants. *)
Lemma degrees_roundtrip (a : R) : a * c180 / cpi * cpi / c180 = a.
Proof.
  pose proof cpi_pos. pose proof c180_pos. field. lra.
Qed.

(** [q = (v^2 +- sqrt root) / (g d)] solves [g d q^2 - 2 v^2 q + g d = 0],
    i.e. [tan] of the launch angle solving the range equation. *)
Lemma range_quadratic d v g (sg : Z) :
  0 < d -> 0 < g -> g * d <= v * v -> (sg = 1 \/ sg = -1)%Z ->
  let q := (v * v + IZR sg * sqrt (elevation_root d v g)) / (g * d) in
  g * d * q ^ 2 - 2 * (v * v) * q + g * d = 0.
Proof.
  intros Hd Hg Hr Hs q.
  pose proof (proj2 (root_nonneg_iff d v g Hd Hg) Hr) as Hnn.
  pose proof (sqrt_sqrt _ Hnn) as Hsq.
  set (s := sqrt _) in *. rewrite root_real in Hsq.
  assert (Hs2 : IZR sg * IZR sg = 1) by (destruct Hs; subst; simpl; lra).
  assert (HD : g * d <> 0) by nra.
  assert (Hq : g * d * q = v * v + IZR sg * s) by (unfold q; field; split; lra).
  apply (Rmult_eq_reg_l (g * d)); [| exact HD].
  replace (g * d * (g * d * q ^ 2 - 2 * (v * v) * q + g * d))
    with ((g * d * q) ^ 2 - 2 * (v * v) * (g * d * q) + (g * d) ^ 2) by ring.
  rewrite Hq.
  replace ((v * v + IZR sg * s) ^ 2 - 2 * (v * v) * (v * v + IZR sg * s) + (g * d) ^ 2)
    with (IZR sg * IZR sg * (s * s) - (v * v) ^ 2 + (g * d) ^ 2) by ring.
  rewrite Hs2, Hsq. ring.
Qed.

(** At the arctangent of [q], the time [d / (v cos)] reaches abscissa [d],
    and its height is [d * (q - g d (1 + q^2) / (2 v^2))]. *)
Lemma trajectory_at_atan d v g q :
  v <> 0 ->
  let rad := atan q in
  let t := d / (v * cos rad) in
  traj_x v rad t = d /\
  traj_y v g rad t = d * q - g * d ^ 2 * (1 + q ^ 2) / (2 * v ^ 2).
Proof.
  intros Hv rad t. unfold traj_x, traj_y, t, rad.
  rewrite cos_atan, sin_atan.
  assert (Hpos : 0 < 1 + q²) by (unfold Rsqr; nra).
  pose proof (sqrt_lt_R0 _ Hpos) as Hs. pose proof (sqrt_sqrt _ (Rlt_le _ _ Hpos)) as Hss.
  split; [field; lra |].
  unfold Rsqr in *. field_simplify; [| lra | lra].
  replace (sqrt (1 + q * q) ^ 2) with (1 + q * q) by (simpl; lra).
  field. lra.
Qed.

(** The argument of [std::atan] in [elevation] (line 21) for the root
    [sg] ([1] or [-1]) of the range equation:
    [(v2 + sg * std::sqrt(root)) / (g * dist)], the tangent of the launch
    angle. *)
Definition arc_tan (d v g : R) (sg : Z) : R :=
  (v * v + IZR sg * sqrt (elevation_root d v g)) / (g * d).

(** Opens [elevation] within range: the guard [root < 0] is false there, so
    the goal is left with the arctangent branch. *)
Ltac open_elevation_in_range d v g Hd Hg Hr :=
  unfold elevation; cbv zeta;
  try match goal with
  | |- context [if fltb ?a ?b then _ else _] =>
      let E := fresh "E" in
      destruct (fltb a b) eqn:E;
      [ exfalso; apply Rltb_true in E; cbn [fof_int real_ops] in E;
        pose proof (proj2 (root_nonneg_iff d v g Hd Hg) Hr); unfold elevation_root in *;
        cbn in *; lra
      | ]
  end.

Section InRange.
Variables d v g : R.
Hypothesis Hd : 0 < d.
Hypothesis Hg : 0 < g.
Hypothesis Hr : g * d <= v * v.

Lemma sqrt_root_facts :
  let s := sqrt (elevation_root d v g) in
  0 <= s /\ s * s = (v * v) ^ 2 - (g * d) ^ 2.
Proof.
  split; [apply sqrt_pos |]. rewrite <- root_real.
  apply sqrt_sqrt, root_nonneg_iff; auto.
Qed.

(** The tangent of the [+ sqrt] root is at least 1, the one of the
    [- sqrt] root is positive and at most 1. *)
Lemma arc_tan_bounds :
  1 <= arc_tan d v g 1 /\ 0 < arc_tan d v g (-1) <= 1.
Proof.
  destruct sqrt_root_facts as [Hs Hss]. unfold arc_tan; cbn [IZR IPR].
  set (s := sqrt _) in *.
  assert (0 < g * d) by nra.
  assert (Hlow : v * v - g * d <= s) by nra.
  assert (Hhi : s < v * v) by nra.
  repeat split.
  - apply Rmult_le_reg_r with (g * d); [lra |]. field_simplify; lra.
  - apply Rdiv_lt_0_compat; lra.
  - apply Rmult_le_reg_r with (g * d); [lra |]. field_simplify; lra.
Qed.

Lemma arc_tan_pos sg : (sg = 1 \/ sg = -1)%Z -> 0 < arc_tan d v g sg.
Proof. destruct arc_tan_bounds. intros [-> | ->]; lra. Qed.

(** Within range, [elevation] read back in radians is the arctangent of one
    of the two roots, whichever the arc selects. *)
Lemma elevation_some_root b :
  exists sg, (sg = 1 \/ sg = -1)%Z /\
             elevation d v g b * cpi / c180 = atan (arc_tan d v g sg).
Proof using Hd Hg Hr.
  open_elevation_in_range d v g Hd Hg Hr.
  eexists; split; [| rewrite degrees_roundtrip; reflexivity].
  destruct b; auto.
Qed.
End InRange.

(** ** Correctness of the firing solution *)

(** C1: within range, each elevation returned by [elevation], read back in
    radians the way [timeOfFlight] reads it, with the time returned by
    [timeOfFlight], is a ballistic trajectory that reaches horizontal
    distance [dist] exactly when it returns to launch height: the solution
    hits the target, for both arcs. *)
Theorem elevation_hits_target (dist v g : R) (highArc : bool) :
  0 < dist -> 0 < g -> g * dist <= v * v ->
  let angle := elevation dist v g highArc in
  let t := timeOfFlight dist v angle g in
  let rad := angle * cpi / c180 in
  traj_x v rad t = dist /\ traj_y v g rad t = 0.
Proof.
  intros Hd Hg Hr angle t rad.
  destruct (elevation_some_root dist v g Hd Hg Hr highArc) as (sg & Hsg & Hrad).
  assert (Hv : v <> 0) by nra.
  assert (Ht : t = dist / (v * cos rad)) by reflexivity.
  rewrite Ht. unfold rad, angle. rewrite Hrad.
  destruct (trajectory_at_atan dist v g (arc_tan dist v g sg) Hv) as [Hx Hy].
  split; [exact Hx |]. rewrite Hy.
  pose proof (range_quadratic dist v g sg Hd Hg Hr Hsg) as Hq.
  cbv zeta in Hq. fold (arc_tan dist v g sg) in Hq.
  apply (Rmult_eq_reg_l (2 * v ^ 2)); [| nra].
  transitivity (- dist * (g * dist * arc_tan dist v g sg ^ 2
                          - 2 * (v * v) * arc_tan dist v g sg + g * dist));
    [field; exact Hv | rewrite Hq; ring].
Qed.

(** C2: the sentinel is unambiguous in exact arithmetic: for a target at
    positive distance, [elevation] returns 0 exactly when the target is
    beyond the maximal range, [v^2 < g * dist]; within range both arcs are
    positive angles. *)
Theorem elevation_zero_iff_out_of_range (dist v g : R) (highArc : bool) :
  0 < dist -> 0 < g ->
  (elevation dist v g highArc = 0 <-> v * v < g * dist).
Proof.
  intros Hd Hg. split.
  - intros H0. destruct (Rlt_or_le (v * v) (g * dist)) as [Hlt | Hle]; [exact Hlt |].
    exfalso.
    destruct (elevation_some_root dist v g Hd Hg Hle highArc) as (sg & Hsg & Hrad).
    pose proof (atan_increasing _ _ (arc_tan_pos dist v g Hd Hg Hle sg Hsg)) as Ha.
    rewrite atan_0, <- Hrad, H0 in Ha. lra.
  - intros Hlt. unfold elevation; cbv zeta.
    match goal with |- context [if ?c then _ else _] => destruct c eqn:E end;
      [reflexivity |].
    apply Rltb_false in E. cbn [fof_int real_ops] in E.
    apply root_nonneg_iff in E; auto. lra.
Qed.

(** C3: the arc the code labels "low" ([highArc = false], the [+ sqrt]
    root, displayed first as "(low)") is the steep trajectory, at or above
    45 degrees, and the one it labels "high" is at or below 45 degrees:
    the labels are swapped with respect to the ballistic convention. *)
Theorem arc_labels_swapped (dist v g : R) :
  0 < dist -> 0 < g -> g * dist <= v * v ->
  elevation dist v g true * cpi / c180 <= PI / 4 <=
  elevation dist v g false * cpi / c180.
Proof.
  intros Hd Hg Hr.
  assert (Hlow : elevation dist v g false * cpi / c180 = atan (arc_tan dist v g 1)).
  { open_elevation_in_range dist v g Hd Hg Hr. rewrite degrees_roundtrip. reflexivity. }
  assert (Hhigh : elevation dist v g true * cpi / c180 = atan (arc_tan dist v g (-1))).
  { open_elevation_in_range dist v g Hd Hg Hr. rewrite degrees_roundtrip. reflexivity. }
  rewrite Hlow, Hhigh, <- atan_1.
  destruct (arc_tan_bounds dist v g Hd Hg Hr) as [Hf [_ Ht]].
  split.
  - destruct Ht as [Hlt | Heq]; [apply Rlt_le, atan_increasing, Hlt |].
    rewrite Heq. apply Rle_refl.
  - destruct Hf as [Hlt | Heq]; [apply Rlt_le, atan_increasing, Hlt |].
    rewrite <- Heq. apply Rle_refl.
Qed.

(** ** Witnesses: the spec's scenario 1 (1000 m at 300 m/s, g = 9.81). *)

Lemma elevation_hits_target_witness :
  let angle := @elevation R real_ops 1000 300 gravity_default false in
  let t := timeOfFlight 1000 300 angle gravity_default in
  traj_x 300 (angle * cpi / c180) t = 1000 /\
  traj_y 300 gravity_default (angle * cpi / c180) t = 0.
Proof. apply elevation_hits_target; cbn; lra. Defined.

Lemma elevation_zero_iff_out_of_range_witness :
  @elevation R real_ops 100000 300 gravity_default true = 0.
Proof. apply elevation_zero_iff_out_of_range; cbn; lra. Defined.

Lemma arc_labels_swapped_witness :
  @elevation R real_ops 1000 300 gravity_default true * cpi / c180 <= PI / 4 <=
  @elevation R real_ops 1000 300 gravity_default false * cpi / c180.
Proof. apply arc_labels_swapped; cbn; lra. Defined.
