(* ===== verification/Float32.v ===== *)
(** * Float32: C++ [float] as IEEE-754 binary32

    The program computes in [float] (SFML's [sf::Vector2f], the members of
    [ArtilleryMath], [velocity]).  On the x86-64 targets SFML builds for,
    [float] arithmetic is binary32 with round-to-nearest-even, which is
    Stdlib's [SpecFloat] at precision 24 and maximal exponent 128: the basic
    operations and [std::sqrt] are correctly rounded, so their model is
    exact.  The <cmath> functions [std::hypot], [std::atan2], [std::atan] and
    [std::cos] are not correctly rounded and differ between C libraries; they
    are the members of the class [Libm], and the class [AnnexF] lists the
    special-value laws that C11 Annex F (F.10) fixes for every conforming
    library.  The theorems about the program quantify over both. *)

From Stdlib Require Import ZArith Lia.
From Stdlib Require Import Floats.SpecFloat.
From S2P Require Import Prelude.

Module Binary32.
Definition prec : Z := 24.
Definition emax : Z := 128.

Abbreviation float := spec_float.

Definition add : float -> float -> float := SFadd prec emax.
Definition sub : float -> float -> float := SFsub prec emax.
Definition mul : float -> float -> float := SFmul prec emax.
Definition div : float -> float -> float := SFdiv prec emax.
Definition sqrt : float -> float := SFsqrt prec emax.

(** Implicit conversion of an [int] to [float], rounding to nearest. *)
Definition of_int (n : Z) : float := binary_normalize prec emax n 0 false.

(** A decimal literal [n * 10^-k] as the compiler reads it: the exact
    quotient of the integers [n] and [10^k], rounded once.  The division
    core of SpecFloat rounds the exact quotient of its operands, which are
    here the (unrounded) integers themselves. *)
Definition lit (n : Z) (k : nat) : float :=
  let d := Z.to_pos (10 ^ Z.of_nat k) in
  match n with
  | Z0 => S754_zero false
  | Zpos p => SFdiv prec emax (S754_finite false p 0) (S754_finite false d 0)
  | Zneg p => SFdiv prec emax (S754_finite true p 0) (S754_finite false d 0)
  end.

(** The float nearest to pi/2 ([0x3FC90FDB]), which [atanf] returns at
    positive infinity. *)
Definition pi_2 : float := S754_finite false 13176795 (-23).

Definition is_nan (x : float) : bool :=
  match x with S754_nan => true | _ => false end.

(** Finite or zero: neither an infinity nor a NaN. *)
Definition is_finite (x : float) : bool :=
  match x with S754_zero _ | S754_finite _ _ _ => true | _ => false end.
End Binary32.

Import Binary32.

(** ** The C library interface *)
Class Libm := {
  hypotf : float -> float -> float;
  atan2f : float -> float -> float;
  atanf : float -> float;
  cosf : float -> float
}.

(** The laws of C11 Annex F that the proofs use: [hypot(x, y)],
    [hypot(y, x)] and [hypot(x, -y)] are equivalent and [hypot(x, +-0)] is
    [fabs(x)] (F.10.4.3); [atan2(+0, +0)] is [+0] (F.10.1.4); [atan(+inf)]
    is pi/2 (F.10.1.3); a NaN argument gives a NaN (F.10). *)
Class AnnexF (L : Libm) : Prop := {
  hypot_comm : forall x y, hypotf x y = hypotf y x;
  hypot_opp_r : forall x y, hypotf x (SFopp y) = hypotf x y;
  hypot_zero_r : forall x s, hypotf x (S754_zero s) = SFabs x;
  atan2_zero_zero : atan2f (S754_zero false) (S754_zero false) = S754_zero false;
  atan_inf : atanf (S754_infinity false) = pi_2;
  atan_nan : atanf S754_nan = S754_nan;
  cos_nan : cosf S754_nan = S754_nan
}.

#[export] Instance binary32_ops {L : Libm} : FloatOps float := {
  fadd := add; fsub := sub; fmul := mul; fdiv := div;
  fltb := SFltb; fof_int := of_int; flit := lit; fsqrt := sqrt;
  fhypot := hypotf; fatan2 := atan2f; fatan := atanf; fcos := cosf
}.

(** ** Facts on binary32 arithmetic *)

(** Rounding does not look at the sign: a negative result is the opposite
    of the positive one. *)
Lemma binary_round_aux_sign m e l :
  binary_round_aux prec emax true m e l
  = SFopp (binary_round_aux prec emax false m e l).
Proof.
  unfold binary_round_aux.
  destruct (shr_fexp prec emax m e l) as [mrs' e'].
  destruct (shr_fexp prec emax _ e' loc_Exact) as [mrs'' e''].
  destruct (shr_m mrs'') as [|p|p]; try reflexivity.
  now destruct (Z.leb e'' _).
Qed.

Lemma abs_normalize_opp m e :
  SFabs (binary_normalize prec emax (Z.opp m) e false)
  = SFabs (binary_normalize prec emax m e false).
Proof.
  destruct m as [|p|p]; simpl; try reflexivity;
    unfold binary_round; destruct (shl_align _ _ _) as [mz ez];
    rewrite binary_round_aux_sign;
    destruct (binary_round_aux _ _ false _ _ _); reflexivity.
Qed.

Lemma abs_normalize_sub_swap a b e :
  SFabs (binary_normalize prec emax (Z.sub b a) e false)
  = SFabs (binary_normalize prec emax (Z.sub a b) e false).
Proof.
  replace (Z.sub b a) with (Z.opp (Z.sub a b)) by lia.
  apply abs_normalize_opp.
Qed.

(** [y - x] and [x - y] have the same magnitude, for every pair of floats:
    round-to-nearest is symmetric, and the zeros, infinities and NaNs agree
    in magnitude. *)
Lemma abs_sub_swap x y : SFabs (sub y x) = SFabs (sub x y).
Proof.
  unfold sub.
  destruct x as [sx|sx| |sx mx ex], y as [sy|sy| |sy my ey]; simpl;
    try destruct sx; try destruct sy; try reflexivity.
  all: rewrite (Z.min_comm ey ex); apply abs_normalize_sub_swap.
Qed.

(** [x - x] is [+0] for every finite [x] (round-to-nearest). *)
Lemma sub_self x : is_finite x = true -> sub x x = S754_zero false.
Proof.
  unfold sub. destruct x as [s|s| |s m e]; simpl; try discriminate.
  - now destruct s.
  - intros _. now rewrite Z.sub_diag.
Qed.

(** [x] is [fabs x] or its opposite (NaN is its own opposite). *)
Lemma abs_cases x : SFabs x = x \/ SFabs x = SFopp x.
Proof. destruct x as [[]|[]| |[] m e]; simpl; auto. Qed.

Section AnnexFFacts.
Context {L : Libm} {LF : AnnexF L}.

Lemma hypot_opp_l x y : hypotf (SFopp x) y = hypotf x y.
Proof. now rewrite hypot_comm, hypot_opp_r, hypot_comm. Qed.

(** [hypot] only sees the magnitudes of its arguments. *)
Lemma hypot_abs x y : hypotf x y = hypotf (SFabs x) (SFabs y).
Proof.
  destruct (abs_cases x) as [-> | ->], (abs_cases y) as [-> | ->];
    now rewrite ?hypot_opp_l, ?hypot_opp_r.
Qed.
End AnnexFFacts.

#[export] Hint Rewrite abs_sub_swap : artillery.
