(* ===== verification/RefLibm.v ===== *)
(** * RefLibm: a reference instance of the C library interface

    A binary32 implementation of [hypotf], [atan2f], [atanf] and [cosf]
    written the way C libraries are: special values first (as C11 Annex F
    fixes them), then a polynomial on a reduced argument.  It shows that the
    laws of [AnnexF] are satisfiable together and gives the theorems about
    the program a concrete library to be evaluated with.  Its accuracy on
    finite arguments is not a claim of the development; only its special
    values are. *)

From Stdlib Require Import ZArith Lia List.
From Stdlib Require Import Floats.SpecFloat.
From S2P Require Import Prelude Float32.
Import Binary32.
Import ListNotations.

Module RefLibm.
Definition is_zero (x : float) : bool :=
  match x with S754_zero _ => true | _ => false end.

Definition fone : float := of_int 1.
Definition fpi : float := lit 314159265 8.

Definition hypot (x y : float) : float :=
  if is_zero y then SFabs x
  else if is_zero x then SFabs y
  else let a := SFabs x in let b := SFabs y in
       sqrt (add (mul a a) (mul b b)).

(** Odd series [t - t^3/3 + t^5/5 - ...] in Horner form, for
    [|t| <= tan(pi/8)]. *)
Definition atan_series (t : float) : float :=
  let t2 := mul t t in
  let c k := div (of_int (if Nat.even k then 1 else -1)) (of_int (Z.of_nat (2 * k + 1))) in
  mul t (fold_right (fun k acc => add (c k) (mul t2 acc)) (S754_zero false) (seq 0 7)).

(** One halving step [atan t = 2 atan (t / (1 + sqrt (1 + t^2)))] brings
    [|t| <= 1] into the series' range; [|t| > 1] goes through
    [pi/2 - atan (1/t)]. *)
Definition atan_unit (t : float) : float :=
  mul (of_int 2) (atan_series (div t (add fone (sqrt (add fone (mul t t)))))).

Definition atan (x : float) : float :=
  match x with
  | S754_nan => S754_nan
  | S754_infinity false => pi_2
  | S754_infinity true => SFopp pi_2
  | S754_zero s => S754_zero s
  | S754_finite s m e =>
      let a := S754_finite false m e in
      let r := if SFltb fone a then sub pi_2 (atan_unit (div fone a)) else atan_unit a in
      if s then SFopp r else r
  end.

Definition atan2 (y x : float) : float :=
  match y, x with
  | S754_nan, _ | _, S754_nan => S754_nan
  | S754_zero sy, S754_zero sx => if sx then (if sy then SFopp fpi else fpi) else y
  | _, _ =>
      if SFltb (S754_zero false) x then atan (div y x)
      else if SFltb x (S754_zero false) then
        (if SFltb y (S754_zero false) then sub (atan (div y x)) fpi
         else add (atan (div y x)) fpi)
      else (if SFltb y (S754_zero false) then SFopp pi_2 else pi_2)
  end.

(** Truncation of a finite float to an integer. *)
Definition trunc (x : float) : Z :=
  match x with
  | S754_finite s m e =>
      let n := if Z.leb 0 e then Z.shiftl (Zpos m) e else Z.shiftr (Zpos m) (- e) in
      if s then Z.opp n else n
  | _ => 0
  end.

(** [cos] by reduction modulo [2 pi] to [[-pi, pi]], then the even series
    [1 - r^2/2! + r^4/4! - ...] on [r/2] and one doubling
    [cos r = 2 cos^2 (r/2) - 1]. *)
Definition cos_series (r : float) : float :=
  let r2 := mul r r in
  let fact k := fold_right Z.mul 1%Z (map Z.of_nat (seq 1 k)) in
  let c k := div (of_int (if Nat.even k then 1 else -1)) (of_int (fact (2 * k))) in
  fold_right (fun k acc => add (c k) (mul r2 acc)) (S754_zero false) (seq 0 7).

Definition cos (x : float) : float :=
  match x with
  | S754_nan | S754_infinity _ => S754_nan
  | S754_zero _ => fone
  | S754_finite _ _ _ =>
      let twopi := mul (of_int 2) fpi in
      let k := trunc (div x twopi) in
      let r := sub x (mul (of_int k) twopi) in
      let h := cos_series (div r (of_int 2)) in
      sub (mul (of_int 2) (mul h h)) fone
  end.

#[export] Instance ref_libm : Libm := {
  hypotf := hypot; atan2f := atan2; atanf := atan; cosf := cos }.

Lemma abs_opp x : SFabs (SFopp x) = SFabs x.
Proof. now destruct x. Qed.

Lemma is_zero_opp x : is_zero (SFopp x) = is_zero x.
Proof. now destruct x. Qed.

Lemma hypot_comm_ref x y : hypot x y = hypot y x.
Proof.
  unfold hypot.
  destruct (is_zero y) eqn:Hy, (is_zero x) eqn:Hx; try reflexivity.
  - destruct x, y; try discriminate; reflexivity.
  - f_equal. unfold add.
    destruct (SFabs x) as [sa|sa| |sa ma ea], (SFabs y) as [sb|sb| |sb mb eb];
      cbn [mul SFmul]; try destruct sa; try destruct sb; try reflexivity;
      unfold SFadd;
      repeat match goal with
             | |- context [binary_round_aux ?p ?e ?s ?m ?x ?l] =>
                 destruct (binary_round_aux p e s m x l) as [[]|[]| |[] ? ?]
             end; try reflexivity;
      now rewrite Z.add_comm, Z.min_comm.
Qed.

#[export] Instance ref_libm_annexF : AnnexF ref_libm.
Proof.
  split; cbn [hypotf atan2f atanf cosf ref_libm].
  - apply hypot_comm_ref.
  - intros x y. unfold hypot. now rewrite is_zero_opp, abs_opp.
  - reflexivity.
  - reflexivity.
  - reflexivity.
  - reflexivity.
  - reflexivity.
Qed.
End RefLibm.
