(* ===== verification/Solver32.v ===== *)
(** * Solver32: [struct ArtilleryMath] over binary32

    The solver of [ArtilleryMath] at the [float] instance of [Float32], for
    every C library satisfying [AnnexF].  These theorems describe what the
    program displays: the symmetry of [distance] in IEEE arithmetic, the
    values at a degenerate geometry (origin equal to target).  Witnesses
    evaluate them
    with the reference library of [RefLibm]. *)

From Stdlib Require Import ZArith.
From Stdlib Require Import Floats.SpecFloat.
From S2P Require Import Prelude ArtilleryMath Float32 RefLibm.
Import Binary32.

(** The default velocity [300.0f] of [main] (line 51). *)
Definition velocity_default : float := lit 300 0.

(** Replaces the argument of [atanf] by the value it evaluates to, when it
    is closed. *)
Ltac eval_atan_arg v :=
  match goal with
  | |- context [@atanf ?L ?a] => replace a with v by (vm_compute; reflexivity)
  end.

Section Solver32.
Context {L : Libm} {LF : AnnexF L}.

Lemma distance_same_point_zero (p : Vector2 float) :
  is_finite (vx p) = true -> is_finite (vy p) = true ->
  distance p p = S754_zero false.
Proof.
  intros Hx Hy. unfold distance; cbn [fsub fhypot binary32_ops].
  rewrite (sub_self _ Hx), (sub_self _ Hy). apply hypot_zero_r.
Qed.

Lemma azimuth_same_point_zero (p : Vector2 float) :
  is_finite (vx p) = true -> is_finite (vy p) = true ->
  azimuth p p = S754_zero false.
Proof.
  intros Hx Hy. unfold azimuth; cbn [fsub fmul fdiv fatan2 binary32_ops].
  rewrite (sub_self _ Hx), (sub_self _ Hy), atan2_zero_zero.
  vm_compute. reflexivity.
Qed.

(** C5: [distance] is symmetric in binary32: [b.x - a.x] and [a.x - b.x]
    differ at most in sign, and [hypot] ignores signs (Annex F). *)
Theorem distance_comm (a b : Vector2 float) : distance a b = distance b a.
Proof.
  unfold distance; cbn [fsub fhypot binary32_ops].
  rewrite (hypot_abs (sub (vx b) _)), (hypot_abs (sub (vx a) _)).
  now rewrite (abs_sub_swap (vx a)), (abs_sub_swap (vy a)).
Qed.

(** C4: origin equal to target at the default velocity.  The distance and
    the azimuth are [+0], but [elevation] divides by [g * dist = +0]: the
    "low" elevation is [atan(+inf) * 180 / pi = 90.0f] and the "high"
    elevation is [atan(0 / 0) = NaN], and so is the high time of flight.
    The spec (section 8) says both elevations are 0. *)
Theorem same_point_solution (p : Vector2 float) :
  is_finite (vx p) = true -> is_finite (vy p) = true ->
  let s := firing_solution true true p p velocity_default in
  sol_dist s = S754_zero false /\ sol_az s = S754_zero false /\
  sol_elevLow s = of_int 90 /\ sol_elevHigh s = S754_nan /\
  sol_tofHigh s = S754_nan.
Proof.
  intros Hx Hy; cbn zeta. unfold firing_solution; cbn [andb sol_dist sol_az
    sol_elevLow sol_elevHigh sol_tofHigh].
  rewrite (distance_same_point_zero p Hx Hy), (azimuth_same_point_zero p Hx Hy).
  assert (Hlow : elevation (S754_zero false) velocity_default gravity_default false
                 = of_int 90).
  { unfold elevation; cbn zeta; cbn [fmul fsub fadd fdiv fltb fof_int fsqrt
      fatan binary32_ops].
    eval_atan_arg (S754_infinity false). rewrite atan_inf.
    vm_compute. reflexivity. }
  assert (Hhigh : elevation (S754_zero false) velocity_default gravity_default true
                  = S754_nan).
  { unfold elevation; cbn zeta; cbn [fmul fsub fadd fdiv fltb fof_int fsqrt
      fatan binary32_ops].
    eval_atan_arg S754_nan. rewrite atan_nan.
    vm_compute. reflexivity. }
  rewrite Hlow, Hhigh. do 4 (split; [reflexivity |]).
  unfold timeOfFlight; cbn zeta; cbn [fmul fdiv fcos binary32_ops].
  match goal with |- context [@cosf ?L ?a] => replace a with S754_nan by reflexivity end.
  rewrite cos_nan. reflexivity.
Qed.
End Solver32.

(** Witnesses, with the reference C library. *)

Import RefLibm.

Lemma same_point_solution_witness :
  let p := mkVector2 (lit 10 0) (lit 10 0) in
  is_finite (vx p) = true /\ is_finite (vy p) = true /\
  sol_elevLow (@firing_solution _ (@binary32_ops ref_libm) true true p p velocity_default)
  = of_int 90.
Proof.
  cbn zeta. split; [reflexivity | split; [reflexivity |]].
  exact (proj1 (proj2 (proj2
    (@same_point_solution ref_libm ref_libm_annexF
       (mkVector2 (lit 10 0) (lit 10 0)) eq_refl eq_refl)))).
Defined.

Lemma distance_comm_witness :
  let a := mkVector2 (lit 10 0) (lit 10 0) in
  let b := mkVector2 (lit 500 0) (lit 800 0) in
  @distance _ (@binary32_ops ref_libm) a b = distance b a.
Proof. cbn zeta. exact (@distance_comm ref_libm ref_libm_annexF _ _). Defined.
