(* ===== verification/Registry.v ===== *)
(** * Registry: [struct TRP] and the TRP list of [main]

    [struct TRP] (source lines 31-34) and the two places where [main]
    touches [std::vector<TRP> trps]: the "Save TRP" button (lines 122-127),
    guarded by [userSet && targetSet && strlen(trpName) > 0], which appends
    [{userPos, targetPos, trpName}] and clears the name buffer; and the loop
    of per-entry buttons (lines 130-138), which copies the positions of a
    clicked entry into the working state.  The name buffer
    [static char trpName[64]] is the string before its terminating NUL, at
    most 63 characters ([ImGui::InputText] with buffer size 64).

    [Module RegistrySpec] states the registry of spec section 4.2 (save
    rejects names that are empty after trimming; select returns the stored
    pair) and the theorems relate the code to it. *)

From Stdlib Require Import Arith ZArith List String Ascii Lia Bool.
From S2P Require Import Prelude.
Import ListNotations.


(** [sizeof trpName - 1]: the longest name [ImGui::InputText] lets the
    user type. *)
Definition name_capacity : nat := 63.

(** [ImGui::InputText("TRP Name", trpName, 64)]: the edited text, cut to
    the buffer. *)
Definition input_text (typed : string) : string := substring 0 name_capacity typed.

Section Registry.
Context {F : Type}.

Record TRP := mkTRP { user : Vector2 F; target : Vector2 F; name : string }.

(** The working positions that a selected entry overwrites: [userPos],
    [targetPos], [userSet] and [targetSet] of [main]. *)
Record Positions := mkPositions {
  p_userPos : Vector2 F; p_targetPos : Vector2 F; p_userSet : bool; p_targetSet : bool }.

(** Lines 124-127: [if (ImGui::Button("Save TRP") && userSet && targetSet
    && strlen(trpName) > 0) { trps.push_back({userPos, targetPos,
    trpName}); trpName[0] = 0; }].  Returns the new vector and buffer. *)
Definition save_trp (clicked : bool) (p : Positions) (trpName : string)
    (trps : list TRP) : list TRP * string :=
  if clicked && p_userSet p && p_targetSet p && Nat.ltb 0 (String.length trpName)
  then (trps ++ [mkTRP (p_userPos p) (p_targetPos p) trpName], EmptyString)
  else (trps, trpName).

(** Lines 130-138: [for (size_t i = 0; i < trps.size(); ++i)], a clicked
    button at index [i] copies [trps[i]] into the working positions.
    [clicked i] is the value [ImGui::Button] returns for entry [i] in this
    frame.  [i] is the index of the head of [rest]. *)
Fixpoint select_loop (clicked : nat -> bool) (i : nat) (rest : list TRP)
    (p : Positions) : Positions :=
  match rest with
  | [] => p
  | t :: rest' =>
      let p' := if clicked i then mkPositions (user t) (target t) true true else p in
      select_loop clicked (S i) rest' p'
  end.

Definition select_trps (clicked : nat -> bool) (trps : list TRP) (p : Positions) :
    Positions :=
  select_loop clicked 0 trps p.

(** Every stored entry has a non-empty name that fits the buffer. *)
Definition name_ok (n : string) : Prop :=
  n <> EmptyString /\ (String.length n <= name_capacity)%nat.

Definition registry_wf (trps : list TRP) : Prop := Forall (fun t => name_ok (name t)) trps.

Lemma length_pos_nonempty (s : string) : Nat.ltb 0 (String.length s) = true -> s <> EmptyString.
Proof. destruct s; simpl; [discriminate | intros _; discriminate]. Qed.

(** The loop leaves the positions alone when no button is clicked from
    index [i] on, and otherwise ends with the last clicked entry. *)
Lemma select_loop_none clicked i rest p :
  (forall j, (i <= j < i + List.length rest)%nat -> clicked j = false) ->
  select_loop clicked i rest p = p.
Proof.
  revert i p. induction rest as [|t rest IH]; intros i p Hc; [reflexivity |].
  cbn [select_loop]. rewrite (Hc i) by (simpl; lia).
  apply IH. intros j Hj. apply Hc. simpl. lia.
Qed.
End Registry.

Arguments TRP F : clear implicits.
Arguments Positions F : clear implicits.

#[export] Hint Unfold registry_wf name_ok : artillery.

(** ** The registry of spec section 4.2 *)
Module RegistrySpec.
Section Spec.
Context {F : Type}.

Definition entry : Type := (string * (Vector2 F * Vector2 F))%type.

(** [isspace] in the C locale. *)
Definition is_space (c : ascii) : bool :=
  match nat_of_ascii c with 32 | 9 | 10 | 11 | 12 | 13 => true | _ => false end.

(** Leading whitespace removed. *)
Fixpoint drop_spaces (l : list ascii) : list ascii :=
  match l with c :: l' => if is_space c then drop_spaces l' else l | [] => [] end.

Definition trim (s : string) : string :=
  let l := list_ascii_of_string s in
  string_of_list_ascii (rev (drop_spaces (rev (drop_spaces l)))).

(** [save(name, origin, target)]: rejected when the name is empty after
    trimming, otherwise appended. *)
Definition save (n : string) (o t : Vector2 F) (reg : list entry) : option (list entry) :=
  if String.eqb (trim n) EmptyString then None else Some (reg ++ [(n, (o, t))]).

(** [select(index)]: the stored pair. *)
Definition select (i : nat) (reg : list entry) : option (Vector2 F * Vector2 F) :=
  option_map snd (nth_error reg i).
End Spec.
End RegistrySpec.

(** The abstraction of the code's vector to the spec's sequence. *)
Definition abs_registry {F} (trps : list (TRP F)) : list (@RegistrySpec.entry F) :=
  map (fun t => (name t, (user t, target t))) trps.

Section RegistryTheorems.
Context {F : Type}.
Implicit Types (trps : list (TRP F)) (p : Positions F).

Lemma select_loop_flags clicked k l p :
  p_userSet p = true -> p_targetSet p = true ->
  p_userSet (select_loop clicked k l p) = true /\ p_targetSet (select_loop clicked k l p) = true.
Proof.
  revert k p. induction l as [|t l IH]; intros k p Hu Ht; [auto |].
  cbn [select_loop]. apply IH; destruct (clicked k); auto.
Qed.

Lemma substring_length_le n (s : string) : (String.length (substring 0 n s) <= n)%nat.
Proof.
  revert s. induction n as [|n IH]; intros s; destruct s; simpl; try lia.
  specialize (IH s). lia.
Qed.

(** C9: the loop of entry buttons ends with the positions of the last
    clicked entry: if entry [i] is clicked and no later one is, the
    working positions become [trps[i]]'s and both flags are set. *)
Theorem select_last_clicked (clicked : nat -> bool) trps p i t :
  nth_error trps i = Some t -> clicked i = true ->
  (forall j, (i < j < List.length trps)%nat -> clicked j = false) ->
  select_trps clicked trps p = mkPositions (user t) (target t) true true.
Proof.
  intros Hn Hc Hl. unfold select_trps.
  assert (Hc' : clicked (0 + i)%nat = true) by exact Hc.
  assert (Hl' : forall j, (i < j < List.length trps)%nat -> clicked (0 + j)%nat = false)
    by exact Hl.
  clear Hc Hl. revert Hc' Hl'. generalize 0%nat as k. revert i p Hn.
  induction trps as [| u l IH]; intros i q Hn k Hc Hl; [destruct i; discriminate |].
  destruct i as [| i]; cbn [select_loop].
  - injection Hn as ->. rewrite Nat.add_0_r in Hc. rewrite Hc.
    apply select_loop_none. intros j Hj.
    replace j with (k + (j - k))%nat by lia. apply Hl. simpl in *. lia.
  - apply (IH i _ Hn (S k)); [now replace (S k + i)%nat with (k + S i)%nat by lia |].
    intros j Hj. replace (S k + j)%nat with (k + S j)%nat by lia. apply Hl. simpl. lia.
Qed.

Lemma select_loop_app clicked k l1 l2 p :
  select_loop clicked k (l1 ++ l2) p
  = select_loop clicked (k + List.length l1) l2 (select_loop clicked k l1 p).
Proof.
  revert k p. induction l1 as [|t l1 IH]; intros k p; simpl.
  - now rewrite Nat.add_0_r.
  - rewrite IH. now rewrite Nat.add_succ_r.
Qed.

Lemma select_loop_last (clicked : nat -> bool) k trps p i t :
  nth_error trps i = Some t -> clicked (k + i)%nat = true ->
  (forall j, (i < j < List.length trps)%nat -> clicked (k + j)%nat = false) ->
  select_loop clicked k trps p = mkPositions (user t) (target t) true true.
Proof.
  intros Hnth Hi Hlater.
  destruct (nth_error_split trps i Hnth) as (l1 & l2 & -> & Hl1).
  rewrite select_loop_app, Hl1. cbn [select_loop].
  rewrite Hi. apply select_loop_none.
  intros j Hj. replace j with (k + (j - k))%nat by lia.
  apply Hlater. rewrite length_app. simpl in *. lia.
Qed.



(** C7: round trip.  Saving with both positions set and a non-empty
    name clears the name buffer, and clicking the new entry's button (the
    last one) afterwards restores exactly the saved positions. *)
Theorem save_select_roundtrip p (n : string) trps (q : Positions F) :
  p_userSet p = true -> p_targetSet p = true -> n <> EmptyString ->
  snd (save_trp true p n trps) = EmptyString /\
  select_trps (fun j => Nat.eqb j (List.length trps))
    (fst (save_trp true p n trps)) q
  = mkPositions (p_userPos p) (p_targetPos p) true true.
Proof.
  intros Hu Ht Hn. unfold save_trp. rewrite Hu, Ht.
  destruct n as [| c n]; [congruence |]. cbn [andb String.length Nat.ltb Nat.leb fst snd].
  split; [reflexivity |].
  apply (select_loop_last _ 0 _ _ (List.length trps) (mkTRP (p_userPos p) (p_targetPos p) (String c n))).
  - apply nth_error_snoc_last.
  - apply Nat.eqb_refl.
  - intros j Hj. rewrite length_snoc in Hj. apply Nat.eqb_neq. lia.
Qed.

Lemma trim_nonempty (n : string) :
  String.eqb (RegistrySpec.trim n) EmptyString = false -> n <> EmptyString.
Proof. intros H ->. discriminate. Qed.

(** C8: refinement.  For a name the spec accepts, a click on "Save TRP"
    with both positions set performs the spec's [save]; and the button of
    entry [i] performs the spec's [select i]. *)
Theorem registry_refines_spec p (n : string) trps :
  p_userSet p = true -> p_targetSet p = true ->
  String.eqb (RegistrySpec.trim n) EmptyString = false ->
  RegistrySpec.save n (p_userPos p) (p_targetPos p) (abs_registry trps)
  = Some (abs_registry (fst (save_trp true p n trps)))
  /\ forall i t q, nth_error trps i = Some t ->
     let q' := select_trps (fun j => Nat.eqb j i) trps q in
     RegistrySpec.select i (abs_registry trps) = Some (p_userPos q', p_targetPos q').
Proof.
  intros Hu Ht Hn. split.
  - unfold RegistrySpec.save, save_trp. rewrite Hn, Hu, Ht.
    destruct n as [| c n]; [discriminate |]. cbn [andb String.length Nat.ltb Nat.leb fst].
    unfold abs_registry. now rewrite map_app.
  - intros i t q Hnth q'.
    assert (Hq : q' = mkPositions (user t) (target t) true true).
    { apply (select_loop_last _ 0 _ _ _ _ Hnth); [apply Nat.eqb_refl |].
      intros j Hj. apply Nat.eqb_neq. lia. }
    rewrite Hq. unfold RegistrySpec.select, abs_registry.
    now rewrite nth_error_map, Hnth.
Qed.

Lemma drop_spaces_nil (l : list ascii) :
  RegistrySpec.drop_spaces l = [] <-> forallb RegistrySpec.is_space l = true.
Proof.
  induction l as [| c l IH]; cbn; [tauto |].
  destruct (RegistrySpec.is_space c); cbn; [exact IH | split; discriminate].
Qed.

(** A name is empty after trimming exactly when all its characters are
    blanks. *)
Lemma trim_empty_iff (n : string) :
  RegistrySpec.trim n = EmptyString
  <-> forallb RegistrySpec.is_space (list_ascii_of_string n) = true.
Proof.
  unfold RegistrySpec.trim. rewrite <- drop_spaces_nil.
  destruct (RegistrySpec.drop_spaces (list_ascii_of_string n)) as [| c l] eqn:E;
    [tauto | split; [| discriminate]].
  assert (Hne : RegistrySpec.drop_spaces (rev (c :: l)) <> []).
  { rewrite drop_spaces_nil, forallb_forall. intros Hall.
    assert (Hc : RegistrySpec.is_space c = false).
    { clear -E. revert E. generalize (list_ascii_of_string n).
      induction l0 as [| d l0 IH]; cbn; [discriminate |].
      destruct (RegistrySpec.is_space d) eqn:Hd; [exact IH | congruence]. }
    rewrite Hall in Hc; [discriminate | apply in_rev; rewrite rev_involutive; now left]. }
  destruct (RegistrySpec.drop_spaces (rev (c :: l))) as [| d l'] eqn:E2; [congruence |].
  cbn. destruct (rev l') as [| e l'']; discriminate.
Qed.

(** C10: the code and the spec reject different names.  With both
    positions set, the spec's [save] rejects exactly the names made of
    blanks only, while "Save TRP" (guard [strlen(trpName) > 0]) leaves the
    registry unchanged exactly for the empty name: every non-empty blank
    name is stored where the spec rejects it. *)
Theorem blank_name_divergence p (n : string) trps :
  p_userSet p = true -> p_targetSet p = true ->
  (RegistrySpec.save n (p_userPos p) (p_targetPos p) (abs_registry trps) = None
   <-> forallb RegistrySpec.is_space (list_ascii_of_string n) = true)
  /\ (fst (save_trp true p n trps) = trps <-> n = EmptyString).
Proof.
  intros Hu Ht. split.
  - unfold RegistrySpec.save. rewrite <- trim_empty_iff.
    destruct (String.eqb_spec (RegistrySpec.trim n) EmptyString); split; congruence.
  - unfold save_trp. rewrite Hu, Ht.
    destruct n as [| c n]; cbn [andb String.length Nat.ltb Nat.leb fst]; [tauto |].
    split; [| discriminate]. intros H.
    apply (f_equal (@List.length _)) in H. rewrite length_app in H. cbn in H. lia.
Qed.
End RegistryTheorems.

(** ** Witnesses: the spec's scenario 3, [save("Hill1", (10,10), (500,800))]
    on an empty registry, then a click on its button. *)

Definition hill1 : Positions Z :=
  mkPositions (mkVector2 10%Z 10%Z) (mkVector2 500%Z 800%Z) true true.

Lemma select_last_clicked_witness :
  select_trps (fun j => Nat.eqb j 0) [mkTRP (mkVector2 10%Z 10%Z) (mkVector2 500%Z 800%Z) "Hill1"%string]
    (mkPositions (mkVector2 0%Z 0%Z) (mkVector2 0%Z 0%Z) false false)
  = mkPositions (mkVector2 10%Z 10%Z) (mkVector2 500%Z 800%Z) true true.
Proof.
  apply (select_last_clicked _ _ _ 0 (mkTRP (mkVector2 10%Z 10%Z) (mkVector2 500%Z 800%Z) "Hill1"%string));
    [reflexivity | reflexivity |].
  intros j Hj. simpl in Hj. lia.
Defined.

Lemma save_select_roundtrip_witness :
  snd (save_trp true hill1 "Hill1"%string []) = EmptyString /\
  select_trps (fun j => Nat.eqb j 0) (fst (save_trp true hill1 "Hill1"%string []))
    (mkPositions (mkVector2 0%Z 0%Z) (mkVector2 0%Z 0%Z) false false)
  = mkPositions (mkVector2 10%Z 10%Z) (mkVector2 500%Z 800%Z) true true.
Proof. apply (save_select_roundtrip hill1 "Hill1"%string []); try reflexivity; discriminate. Defined.

Lemma registry_refines_spec_witness :
  RegistrySpec.save "Hill1"%string (mkVector2 10%Z 10%Z) (mkVector2 500%Z 800%Z)
    (abs_registry (F := Z) [])
  = Some (abs_registry (fst (save_trp true hill1 "Hill1"%string []))).
Proof.
  apply (proj1 (registry_refines_spec hill1 "Hill1"%string [] eq_refl eq_refl eq_refl)).
Defined.

Lemma blank_name_divergence_witness :
  RegistrySpec.save " "%string (mkVector2 10%Z 10%Z) (mkVector2 500%Z 800%Z)
    (abs_registry (F := Z) []) = None
  /\ fst (save_trp true hill1 " "%string []) <> [].
Proof.
  destruct (blank_name_divergence hill1 " "%string [] eq_refl eq_refl) as [Hs Hc].
  split; [apply Hs; reflexivity |].
  intros H. apply Hc in H. discriminate.
Defined.
