(* ===== verification/MapInput.v ===== *)
(** * MapInput: the event loop of [main] (source lines 54-97)

    [while (window.pollEvent(event))] dispatches each event on its type:
    [Closed] closes the window; a mouse press inside the 600x600 map area
    (window pixels, [sf::Mouse::getPosition(window)]) sets the user
    position (left button), the target position (right button) or starts
    panning (middle button); releasing the middle button stops panning; a
    mouse move while panning moves the [sf::View] by the world-space offset
    between the previous and the current cursor position; the wheel inside
    the map area zooms the view by [0.9f] (forward) or [1.1f].

    The state is the part of [main]'s locals the loop reads and writes
    ([mapView], [userPos], [targetPos], [userSet], [targetSet], [dragging],
    [lastDrag]) plus whether the window is open.  [sf::View] is its center
    and size (rotation 0, full viewport, as [main] leaves them), with
    SFML's [zoom] and [move].  [window.mapPixelToCoords] is a parameter of
    the section: it depends on the window's current size, which the program
    does not control.
    Each polled event is paired with the cursor position
    [sf::Mouse::getPosition(window)] read while handling it. *)

From Stdlib Require Import ZArith List Bool.
From S2P Require Import Prelude.
Import ListNotations.

Section MapInput.
Context {F : Type} {FO : FloatOps F}.
Local Open Scope fl_scope.

Record View := mkView { center : Vector2 F; size : Vector2 F }.

(** [sf::View::zoom(factor)]: [setSize(m_size.x * factor, m_size.y * factor)]. *)
Definition view_zoom (v : View) (factor : F) : View :=
  mkView (center v) (mkVector2 (vx (size v) * factor) (vy (size v) * factor)).

(** [sf::View::move(offset)]: [setCenter(m_center + offset)]. *)
Definition view_move (v : View) (offset : Vector2 F) : View :=
  mkView (mkVector2 (vx (center v) + vx offset) (vy (center v) + vy offset)) (size v).

(** [sf::View(sf::FloatRect(0, 0, 600, 600))]: center [left + width / 2],
    size [width]. *)
Definition initial_view : View :=
  let w := fof_int 600 in
  mkView (mkVector2 (fof_int 0 + w / fof_int 2) (fof_int 0 + w / fof_int 2))
         (mkVector2 w w).

Inductive MouseButton := Left | Right | Middle | XButton1 | XButton2.

(** The [sf::Event] types the loop distinguishes; [MouseWheelScrolled]
    carries [event.mouseWheelScroll.delta], [.x] and [.y]. *)
Inductive Event :=
| Closed
| MouseButtonPressed (button : MouseButton)
| MouseButtonReleased (button : MouseButton)
| MouseMoved
| MouseWheelScrolled (delta : F) (x y : Z)
| OtherEvent.

Record MapState := mkMapState {
  window_open : bool;
  mapView : View;
  userPos : Vector2 F;
  targetPos : Vector2 F;
  userSet : bool;
  targetSet : bool;
  dragging : bool;
  lastDrag : Vector2 Z }.

Definition set_window_closed (s : MapState) : MapState :=
  mkMapState false (mapView s) (userPos s) (targetPos s) (userSet s) (targetSet s)
    (dragging s) (lastDrag s).
Definition set_user (s : MapState) (p : Vector2 F) : MapState :=
  mkMapState (window_open s) (mapView s) p (targetPos s) true (targetSet s)
    (dragging s) (lastDrag s).
Definition set_target (s : MapState) (p : Vector2 F) : MapState :=
  mkMapState (window_open s) (mapView s) (userPos s) p (userSet s) true
    (dragging s) (lastDrag s).
Definition set_drag (s : MapState) (d : bool) (last : Vector2 Z) : MapState :=
  mkMapState (window_open s) (mapView s) (userPos s) (targetPos s) (userSet s)
    (targetSet s) d last.
Definition set_view (s : MapState) (v : View) : MapState :=
  mkMapState (window_open s) v (userPos s) (targetPos s) (userSet s) (targetSet s)
    (dragging s) (lastDrag s).

(** [mouse.x < 600 && mouse.y < 600]: the map part of the window. *)
Definition in_map_area (x y : Z) : bool := (x <? 600)%Z && (y <? 600)%Z.

Variable mapPixelToCoords : Vector2 Z -> View -> Vector2 F.

(** One iteration of the [pollEvent] loop, lines 57-96. *)
Definition process_event (s : MapState) (ev : Event) (mouse : Vector2 Z) : MapState :=
  match ev with
  | Closed => set_window_closed s
  | MouseButtonPressed b =>
      let world := mapPixelToCoords mouse (mapView s) in
      if in_map_area (vx mouse) (vy mouse) then
        match b with
        | Left => set_user s world
        | Right => set_target s world
        | Middle => set_drag s true mouse
        | _ => s
        end
      else s
  | MouseButtonReleased b =>
      match b with Middle => set_drag s false (lastDrag s) | _ => s end
  | MouseMoved =>
      if dragging s then
        let a := mapPixelToCoords (lastDrag s) (mapView s) in
        let c := mapPixelToCoords mouse (mapView s) in
        let delta := mkVector2 (vx a - vx c) (vy a - vy c) in
        set_drag (set_view s (view_move (mapView s) delta)) true mouse
      else s
  | MouseWheelScrolled delta x y =>
      if in_map_area x y then
        let factor := if fof_int 0 <? delta then flit 9 1 else flit 11 1 in
        set_view s (view_zoom (mapView s) factor)
      else s
  | OtherEvent => s
  end.

(** SFML's [RenderTarget::mapPixelToCoords] for a window of [w] by [h]
    pixels and a view with the full viewport and no rotation: the pixel is
    normalized to [[-1, 1]] ([y] pointing up) and mapped back through the
    view, [center + normalized * size / 2] (the inverse of the view's
    transform). *)
Definition sfml_map_pixel (w h : Z) (p : Vector2 Z) (v : View) : Vector2 F :=
  let nx := fof_int (-1) + fof_int 2 * fof_int (vx p) / fof_int w in
  let ny := fof_int 1 - fof_int 2 * fof_int (vy p) / fof_int h in
  mkVector2 (vx (center v) + nx * (vx (size v) / fof_int 2))
            (vy (center v) - ny * (vy (size v) / fof_int 2)).

(** The whole [pollEvent] loop of one frame. *)
Definition poll_events (s : MapState) (evs : list (Event * Vector2 Z)) : MapState :=
  fold_left (fun s em => process_event s (fst em) (snd em)) evs s.
End MapInput.

Arguments View F : clear implicits.
Arguments Event F : clear implicits.
Arguments MapState F : clear implicits.

Section MapInputTheorems.
Context {F : Type} {FO : FloatOps F}.
Variable mapPixelToCoords : Vector2 Z -> View F -> Vector2 F.
Let step := process_event mapPixelToCoords.

(** C12: an event changes the user position or its flag only when it is
    a left press inside the map area, and then the position becomes the
    world point under the cursor and the flag is set; likewise the target
    position with the right button. *)
Theorem positions_change_only_by_clicks (s : MapState F) (ev : Event F) (m : Vector2 Z) :
  let s' := step s ev m in
  ((userPos s' = userPos s /\ userSet s' = userSet s)
   \/ (ev = MouseButtonPressed Left /\ in_map_area (vx m) (vy m) = true /\
       userPos s' = mapPixelToCoords m (mapView s) /\ userSet s' = true))
  /\ ((targetPos s' = targetPos s /\ targetSet s' = targetSet s)
   \/ (ev = MouseButtonPressed Right /\ in_map_area (vx m) (vy m) = true /\
       targetPos s' = mapPixelToCoords m (mapView s) /\ targetSet s' = true)).
Proof.
  unfold step; cbv zeta.
  destruct ev as [| b | b | | delta x y |]; cbn [process_event];
    split_guards; try destruct b; cbn; auto 7.
Qed.

Lemma step_flags_monotone s ev m :
  (userSet s = true -> userSet (step s ev m) = true) /\
  (targetSet s = true -> targetSet (step s ev m) = true).
Proof.
  unfold step. destruct ev as [| b | b | | delta x y |]; cbn [process_event];
    split_guards; try destruct b; cbn; auto.
Qed.

(** No event unsets [userSet] or [targetSet]: once a position is
    designated it stays designated for the rest of the event loop. *)
Lemma poll_events_flags_monotone (s : MapState F) evs :
  (userSet s = true -> userSet (poll_events mapPixelToCoords s evs) = true) /\
  (targetSet s = true -> targetSet (poll_events mapPixelToCoords s evs) = true).
Proof.
  unfold poll_events. revert s.
  induction evs as [| [ev m] evs IH]; intros s; [auto |].
  cbn [fold_left fst snd]. destruct (step_flags_monotone s ev m).
  destruct (IH (step s ev m)). split; auto.
Qed.

(** C13: the panning flag is the automaton of the code: a middle press
    inside the map area starts panning, a middle release stops it, every
    other event keeps it. *)
Theorem dragging_step (s : MapState F) (ev : Event F) (m : Vector2 Z) :
  dragging (step s ev m) =
  match ev with
  | MouseButtonPressed Middle => in_map_area (vx m) (vy m) || dragging s
  | MouseButtonReleased Middle => false
  | _ => dragging s
  end.
Proof.
  unfold step. destruct ev as [| b | b | | delta x y |]; cbn [process_event];
    split_guards; try destruct b; cbn; auto.
Qed.

(** The window is closed by a [Closed] event and by nothing else. *)
Lemma window_open_step s ev m :
  window_open (step s ev m)
  = window_open s && negb (match ev with Closed => true | _ => false end).
Proof.
  unfold step. destruct ev as [| b | b | | delta x y |]; cbn [process_event];
    split_guards; try destruct b; cbn; rewrite ?andb_true_r, ?andb_false_r; auto.
Qed.
End MapInputTheorems.
