(* ===== verification/MapReal.v ===== *)
(** * MapReal: the event loop with SFML's coordinate mapping, exactly

    [MapInput] at the real instance of [SolverReal], with
    [window.mapPixelToCoords] the formula of [sfml_map_pixel] for a window of
    [w] by [h] pixels.  In exact arithmetic the mapping commutes with
    [sf::View::move], which is what makes the panning code of lines 85-90
    correct: the world point grabbed stays under the cursor.  At the
    initial view of [main] the map area test [mouse.x < 600] covers only the
    left half of the drawn grid, because the view is stretched over the
    whole 1200x700 window; and the wheel zooms about the view's center, not
    about the cursor. *)

From Stdlib Require Import Reals Lra Lia ZArith Bool.
From S2P Require Import Prelude SolverReal MapInput.
Local Open Scope R_scope.

Definition rmap (w h : Z) : Vector2 Z -> View R -> Vector2 R :=
  @sfml_map_pixel R real_ops w h.

(** Moving the view by [d] moves every mapped point by [d]. *)
Lemma rmap_move w h p v d :
  rmap w h p (view_move v d)
  = mkVector2 (vx (rmap w h p v) + vx d) (vy (rmap w h p v) + vy d).
Proof. unfold rmap, sfml_map_pixel, view_move. cbn. f_equal; ring. Qed.

(** C16: panning is exact: after a mouse move while dragging, the world
    point under the new cursor position is the one that was under the
    previous cursor position, and the drag goes on from the new position. *)
Theorem drag_keeps_grabbed_point (w h : Z) (s : MapState R) (m : Vector2 Z) :
  dragging s = true ->
  let s' := process_event (rmap w h) s MouseMoved m in
  rmap w h m (mapView s') = rmap w h (lastDrag s) (mapView s) /\
  lastDrag s' = m /\ dragging s' = true.
Proof.
  intros Hd. cbv zeta. unfold process_event. rewrite Hd. cbn [mapView lastDrag dragging
    set_drag set_view].
  split; [| split; reflexivity].
  rewrite rmap_move. cbn [vx vy].
  destruct (rmap w h (lastDrag s) (mapView s)) as [ax ay].
  destruct (rmap w h m (mapView s)) as [cx cy]. cbn. f_equal; ring.
Qed.

(** C17: at the initial view [sf::View(FloatRect(0, 0, 600, 600))] in the
    1200x700 window, a left click accepted by the map area test lands at
    world abscissa [mouse.x / 2], below 300: the right half of the 600-wide
    grid cannot be designated without panning. *)
Theorem initial_view_click_left_half (s : MapState R) (m : Vector2 Z) :
  mapView s = initial_view -> (0 <= vx m)%Z -> in_map_area (vx m) (vy m) = true ->
  let s' := process_event (rmap 1200 700) s (MouseButtonPressed Left) m in
  vx (userPos s') = IZR (vx m) / 2 /\ 0 <= vx (userPos s') < 300.
Proof.
  intros Hv Hx Hin. cbv zeta. unfold process_event. rewrite ?Hin, Hv.
  unfold in_map_area in Hin. apply andb_true_iff in Hin as [Hx600 _].
  apply Z.ltb_lt in Hx600. apply IZR_le in Hx. apply IZR_lt in Hx600.
  unfold rmap, sfml_map_pixel, initial_view. cbn.
  split; [field | split]; lra.
Qed.


(** C18: the wheel zooms about the view's center, not about the cursor:
    inside the map area a forward scroll maps every pixel to the point
    [c + 0.9 (q - c)], where [q] is its world point before the scroll and
    [c] the view's center, and a backward (or zero) scroll to
    [c + 1.1 (q - c)]; so the world point under the cursor moves unless the
    cursor is at the window's center pixel. *)
Theorem wheel_zoom_about_center (w h : Z) (s : MapState R) (delta : R) (x y : Z)
    (m p : Vector2 Z) :
  in_map_area x y = true -> w <> 0%Z -> h <> 0%Z ->
  let s' := process_event (rmap w h) s (MouseWheelScrolled delta x y) m in
  let k := if Rlt_dec 0 delta then 9 / 10 else 11 / 10 in
  let c := center (mapView s) in
  let q := rmap w h p (mapView s) in
  rmap w h p (mapView s') = mkVector2 (vx c + k * (vx q - vx c)) (vy c + k * (vy q - vy c)).
Proof.
  intros Hin Hw Hh. cbv zeta. unfold process_event. rewrite Hin.
  unfold rmap, sfml_map_pixel, view_zoom. cbn. unfold Rltb.
  apply not_0_IZR in Hw, Hh.
  destruct (Rlt_dec 0 delta); cbn; f_equal; field; auto.
Qed.

Lemma drag_keeps_grabbed_point_witness :
  let s := mkMapState true initial_view (mkVector2 0 0) (mkVector2 0 0) false false true
             (mkVector2 100%Z 100%Z) in
  let s' := process_event (rmap 1200 700) s MouseMoved (mkVector2 150%Z 120%Z) in
  rmap 1200 700 (mkVector2 150%Z 120%Z) (mapView s')
  = rmap 1200 700 (mkVector2 100%Z 100%Z) (mapView s).
Proof. apply drag_keeps_grabbed_point. reflexivity. Defined.

Lemma initial_view_click_left_half_witness :
  let s := mkMapState true initial_view (mkVector2 0 0) (mkVector2 0 0) false false false
             (mkVector2 0%Z 0%Z) in
  vx (userPos (process_event (rmap 1200 700) s (MouseButtonPressed Left)
                 (mkVector2 599%Z 10%Z))) < 300.
Proof.
  cbv zeta.
  refine (proj2 (proj2 (initial_view_click_left_half
    (mkMapState true initial_view (mkVector2 0 0) (mkVector2 0 0) false false false
       (mkVector2 0%Z 0%Z)) (mkVector2 599%Z 10%Z) eq_refl _ eq_refl))).
  cbn. lia.
Defined.


Lemma wheel_zoom_about_center_witness :
  let v' := mapView (process_event (rmap 1200 700)
              (mkMapState true initial_view (mkVector2 0 0) (mkVector2 0 0) false false false
                 (mkVector2 0%Z 0%Z)) (MouseWheelScrolled 1 10 10) (mkVector2 10%Z 10%Z)) in
  let q := rmap 1200 700 (mkVector2 0%Z 0%Z) initial_view in
  let c := center initial_view in
  rmap 1200 700 (mkVector2 0%Z 0%Z) v'
  = mkVector2 (vx c + 9 / 10 * (vx q - vx c)) (vy c + 9 / 10 * (vy q - vy c)).
Proof.
  cbv zeta.
  rewrite (wheel_zoom_about_center 1200 700
    (mkMapState true initial_view (mkVector2 0 0) (mkVector2 0 0) false false false
       (mkVector2 0%Z 0%Z)) 1 10 10 (mkVector2 10%Z 10%Z) (mkVector2 0%Z 0%Z)
    eq_refl ltac:(discriminate) ltac:(discriminate)).
  cbn [mapView]. destruct (Rlt_dec 0 1) as [_ | H]; [reflexivity | exfalso; lra].
Defined.
