(* ===== verification/Frame.v ===== *)
(** * Frame: one iteration of [main]'s [while (window.isOpen())] loop

    A frame (source lines 55-169) runs, in this order: the event loop of
    [MapInput]; the firing solution of [ArtilleryMath] for the current
    positions and velocity (lines 106-114), which is what the four
    [ImGui::Text] lines display; the [ImGui::InputFloat] edit of [velocity]
    (line 119); the [ImGui::InputText] edit of the name buffer (line 123);
    the "Save TRP" button and the entry buttons of [Registry] (lines
    124-138); and the drawing of the map (lines 141-169).  What the user
    does through ImGui in a frame is the [FrameInput]: the polled events
    with the cursor position, the edited velocity and name if any, whether
    "Save TRP" was clicked and which entry buttons were.  A frame returns
    the new state and its [FrameOutput]: the displayed solution and the
    list of draw calls.  The loop [main_loop] runs frames while the window
    is open, one [FrameInput] per frame. *)

From Stdlib Require Import ZArith List Bool String Lia.
From S2P Require Import Prelude ArtilleryMath Registry MapInput.
Import ListNotations.

Section Frame.
Context {F : Type} {FO : FloatOps F}.
Local Open Scope fl_scope.

Variable mapPixelToCoords : Vector2 Z -> View F -> Vector2 F.

Record AppState := mkApp {
  map : MapState F;
  velocity : F;
  trps : list (TRP F);
  trpName : string }.

Record FrameInput := mkInput {
  fi_events : list (Event F * Vector2 Z);
  fi_velocity : option F;
  fi_name : option string;
  fi_save : bool;
  fi_select : nat -> bool }.

Inductive Color := Blue | Red | Gray (r g b : Z).

Inductive DrawCmd :=
| Clear (c : Color)
| SetView (v : View F)
| DrawLines (vertices : list (Vector2 F)) (c : Color)
| DrawCircle (radius : Z) (c : Color) (pos : Vector2 F)
| SetDefaultView
| RenderImGui
| DisplayWindow.

Record FrameOutput := mkOutput { fo_solution : FiringSolution F; fo_draw : list DrawCmd }.

(** [sf::Vector2f(i, j)] from two ints. *)
Definition vec_of_ints (i j : Z) : Vector2 F := mkVector2 (fof_int i) (fof_int j).

(** Lines 147-152: [for (int i = 0; i <= 600; i += 60)] appends four
    vertices per step.  [fuel] bounds the iterations; 12 is enough (the
    loop runs 11 times and then fails its test). *)
Fixpoint grid_loop (fuel : nat) (i : Z) : list (Vector2 F) :=
  match fuel with
  | O => []
  | S fuel' =>
      if (i <=? 600)%Z then
        [vec_of_ints i 0; vec_of_ints i 600; vec_of_ints 0 i; vec_of_ints 600 i]
          ++ grid_loop fuel' (i + 60)
      else []
  end.

Definition grid_fuel : nat := 12.
Definition grid_vertices : list (Vector2 F) := grid_loop grid_fuel 0.

(** Lines 142-169, after the UI: clear, map view, grid, the user marker
    if [userSet], the target marker if [targetSet], default view, ImGui,
    display. *)
Definition draw_frame (m : MapState F) : list DrawCmd :=
  [Clear (Gray 30 30 30); SetView (mapView m); DrawLines grid_vertices (Gray 100 100 100)]
  ++ (if userSet m then [DrawCircle 8 Blue (userPos m)] else [])
  ++ (if targetSet m then [DrawCircle 8 Red (targetPos m)] else [])
  ++ [SetDefaultView; RenderImGui; DisplayWindow].

Definition positions_of (m : MapState F) : Positions F :=
  mkPositions (userPos m) (targetPos m) (userSet m) (targetSet m).

Definition with_positions (m : MapState F) (p : Positions F) : MapState F :=
  mkMapState (window_open m) (mapView m) (p_userPos p) (p_targetPos p)
    (p_userSet p) (p_targetSet p) (dragging m) (lastDrag m).

(** One frame, in the order of the source. *)
Definition frame (st : AppState) (inp : FrameInput) : AppState * FrameOutput :=
  let m1 := poll_events mapPixelToCoords (map st) (fi_events inp) in
  let sol := firing_solution (userSet m1) (targetSet m1) (userPos m1) (targetPos m1)
               (velocity st) in
  let vel := match fi_velocity inp with Some v => v | None => velocity st end in
  let nm := match fi_name inp with Some s => input_text s | None => trpName st end in
  let '(trps', nm') := save_trp (fi_save inp) (positions_of m1) nm (trps st) in
  let m2 := with_positions m1 (select_trps (fi_select inp) trps' (positions_of m1)) in
  (mkApp m2 vel trps' nm', mkOutput sol (draw_frame m2)).

(** [while (window.isOpen())]: one input per frame, until the window is
    closed at the head of the loop. *)
Fixpoint main_loop (st : AppState) (inputs : list FrameInput)
    : AppState * list FrameOutput :=
  match inputs with
  | [] => (st, [])
  | inp :: rest =>
      if window_open (map st) then
        let '(st', out) := frame st inp in
        let '(st'', outs) := main_loop st' rest in
        (st'', out :: outs)
      else (st, [])
  end.

(** The locals of [main] before the loop (lines 41-51): default-constructed
    vectors are zero, the name buffer is empty, velocity is [300.0f]. *)
Definition init_state : AppState :=
  let z := vec_of_ints 0 0 in
  mkApp (mkMapState true initial_view z z false false false (mkVector2 0%Z 0%Z))
    (flit 300 0) [] EmptyString.

Inductive reachable : AppState -> Prop :=
| reach_init : reachable init_state
| reach_frame st inp :
    reachable st -> window_open (map st) = true -> reachable (fst (frame st inp)).
End Frame.

Arguments AppState F : clear implicits.
Arguments FrameInput F : clear implicits.
Arguments DrawCmd F : clear implicits.
Arguments FrameOutput F : clear implicits.

Section FrameTheorems.
Context {F : Type} {FO : FloatOps F}.
Variable mapPixelToCoords : Vector2 Z -> View F -> Vector2 F.
Let frame' := frame mapPixelToCoords.

(** The invariant of [main]'s state: stored names are non-empty and fit
    the buffer, the buffer fits itself, and a non-empty registry means
    both positions are designated. *)
Definition app_inv (st : AppState F) : Prop :=
  registry_wf (trps st) /\ (String.length (trpName st) <= name_capacity)%nat /\
  (trps st <> [] -> userSet (map st) = true /\ targetSet (map st) = true).

(** After the events of a frame, a non-empty registry (old, or just
    appended to) goes with both positions designated. *)
Lemma saved_flags st inp nm :
  app_inv st ->
  let m1 := poll_events mapPixelToCoords (map st) (fi_events inp) in
  fst (save_trp (fi_save inp) (positions_of m1) nm (trps st)) <> [] ->
  p_userSet (positions_of m1) = true /\ p_targetSet (positions_of m1) = true.
Proof.
  intros (_ & _ & Hflags) m1 Hne. unfold save_trp in Hne.
  match goal with _ : context [if ?c then _ else _] |- _ => destruct c eqn:Hg end.
  - rewrite !andb_true_iff in Hg. tauto.
  - destruct (Hflags Hne) as [Hu Ht].
    destruct (poll_events_flags_monotone mapPixelToCoords (map st) (fi_events inp)).
    split; auto.
Qed.

(** C6: every state [main] reaches satisfies [app_inv]: in particular
    every stored TRP has a non-empty name, the invariant the spec asks
    the registry to maintain. *)
Theorem reachable_inv st : reachable mapPixelToCoords st -> app_inv st.
Proof.
  induction 1 as [| st inp _ IH _].
  - split; [apply Forall_nil | split; [cbn; unfold name_capacity; lia |]].
    intros H. exfalso. apply H. reflexivity.
  - pose proof IH as (Hwf & Hlen & _). unfold frame.
    set (m1 := poll_events mapPixelToCoords (map st) (fi_events inp)).
    set (nm := match fi_name inp with Some s => input_text s | None => trpName st end).
    assert (Hnm : (String.length nm <= name_capacity)%nat)
      by (unfold nm; destruct (fi_name inp); [apply substring_length_le | exact Hlen]).
    pose proof (saved_flags st inp nm IH) as Hf. cbv zeta in Hf. fold m1 in Hf.
    destruct (save_trp (fi_save inp) (positions_of m1) nm (trps st)) as [trps' nm'] eqn:Hs.
    cbn [fst] in Hf. unfold app_inv; cbn [fst trps trpName map].
    assert (Hsel : trps' <> [] -> userSet (with_positions m1 (select_trps (fi_select inp) trps'
               (positions_of m1))) = true /\ targetSet (with_positions m1 (select_trps
               (fi_select inp) trps' (positions_of m1))) = true)
      by (intros Hne; destruct (Hf Hne); now apply select_loop_flags).
    unfold save_trp in Hs. destruct (_ && _) eqn:Hg; injection Hs as <- <-;
      (split; [| split; [| exact Hsel]]); try assumption;
      first [ apply Forall_snoc; [exact Hwf |]; split; [| exact Hnm];
              apply length_pos_nonempty; rewrite !andb_true_iff in Hg; tauto
            | cbn; unfold name_capacity; lia ].
Qed.

(** [Save TRP] leaves the registry alone or appends one entry. *)
Lemma save_trp_appends c p nm (l : list (TRP F)) :
  fst (save_trp c p nm l) = l \/ exists t, fst (save_trp c p nm l) = l ++ [t].
Proof.
  unfold save_trp. match goal with |- context [if ?c then _ else _] => destruct c end;
    cbn; eauto.
Qed.

Lemma frame_trps st inp :
  trps (fst (frame' st inp)) = trps st \/
  exists t, trps (fst (frame' st inp)) = trps st ++ [t].
Proof.
  unfold frame', frame.
  destruct (save_trp_appends (fi_save inp) (positions_of
    (poll_events mapPixelToCoords (map st) (fi_events inp)))
    (match fi_name inp with Some s => input_text s | None => trpName st end) (trps st))
    as [Hs | [t Hs]];
  destruct (save_trp _ _ _ _); cbn in *; subst; eauto.
Qed.

(** C11: the registry is append-only over the whole run of [main]: the
    entries present before any number of frames are still there, in the
    same order, after them. *)
Theorem main_loop_trps_prefix st inputs :
  exists suffix, trps (fst (main_loop mapPixelToCoords st inputs)) = trps st ++ suffix.
Proof.
  revert st. induction inputs as [| inp rest IH]; intros st; cbn [main_loop].
  - exists []. now rewrite app_nil_r.
  - destruct (window_open (map st)); [| exists []; now rewrite app_nil_r].
    fold (frame' st inp). destruct (frame' st inp) as [st' out] eqn:Hf.
    destruct (main_loop mapPixelToCoords st' rest) as [st'' outs] eqn:Hl.
    destruct (IH st') as [suf Hsuf]. rewrite Hl in Hsuf. cbn [fst] in *.
    destruct (frame_trps st inp) as [Ht | [t Ht]]; rewrite Hf in Ht; cbn [fst] in Ht;
      rewrite Hsuf, Ht; [exists suf; reflexivity | exists (t :: suf)].
    now rewrite <- app_assoc.
Qed.

Lemma draw_frame_marker m c p :
  In (DrawCircle 8 c p) (draw_frame m) <->
  (c = Blue /\ userSet m = true /\ p = userPos m) \/
  (c = Red /\ targetSet m = true /\ p = targetPos m).
Proof.
  unfold draw_frame. rewrite !in_app_iff.
  destruct (userSet m), (targetSet m); cbn; intuition congruence.
Qed.

(** C14: the map shows a blue marker exactly at [userPos] when [userSet]
    holds and a red one exactly at [targetPos] when [targetSet] holds,
    with the positions the frame ends with (a TRP selected in this frame
    is drawn in this frame). *)
Theorem markers_drawn st inp p :
  let st' := fst (frame' st inp) in
  let out := snd (frame' st inp) in
  (In (DrawCircle 8 Blue p) (fo_draw out) <-> userSet (map st') = true /\ p = userPos (map st'))
  /\ (In (DrawCircle 8 Red p) (fo_draw out) <->
      targetSet (map st') = true /\ p = targetPos (map st')).
Proof.
  cbv zeta. unfold frame', frame.
  destruct (save_trp _ _ _ _) as [trps' nm']. cbn [fst snd fo_draw map].
  rewrite !draw_frame_marker. split; split; intuition congruence.
Qed.

Lemma poll_events_window s evs :
  window_open (poll_events mapPixelToCoords s evs)
  = window_open s && forallb (fun em => match fst em with Closed => false | _ => true end) evs.
Proof.
  unfold poll_events. revert s.
  induction evs as [| [ev m] evs IH]; intros s; cbn [fold_left forallb fst snd].
  - now rewrite andb_true_r.
  - rewrite IH, window_open_step, <- andb_assoc. now destruct ev.
Qed.

(** C15: [window.close()] ends the program after the current frame: if
    the events of a frame include [Closed], that frame completes (UI,
    drawing) and no later frame runs. *)
Theorem main_loop_stops_on_close st inp rest (m : Vector2 Z) :
  window_open (map st) = true -> In (Closed, m) (fi_events inp) ->
  List.length (snd (main_loop mapPixelToCoords st (inp :: rest))) = 1%nat.
Proof.
  intros Hopen Hin. cbn [main_loop]. rewrite Hopen. fold (frame' st inp).
  assert (Hclosed : window_open (map (fst (frame' st inp))) = false).
  { unfold frame', frame. destruct (save_trp _ _ _ _) as [trps' nm'].
    cbn [fst map window_open with_positions]. rewrite poll_events_window.
    destruct (forallb _ _) eqn:Hf; [| apply andb_false_r].
    rewrite forallb_forall in Hf. specialize (Hf _ Hin). discriminate. }
  destruct (frame' st inp) as [st' out]. cbn [fst] in Hclosed.
  destruct rest as [| inp' rest]; cbn [main_loop]; [reflexivity |].
  now rewrite Hclosed.
Qed.

(** C19: ordering within a frame: the values displayed in a frame use the
    velocity held at the start of the frame (the [ImGui::InputFloat] edit
    comes after the [ImGui::Text] lines); the edited velocity is the one the
    next frame displays with. *)
Theorem velocity_edit_next_frame st inp inp2 (v : F) :
  fi_velocity inp = Some v -> fi_events inp2 = [] ->
  let m1 := poll_events mapPixelToCoords (map st) (fi_events inp) in
  let st1 := fst (frame' st inp) in
  fo_solution (snd (frame' st inp))
  = firing_solution (userSet m1) (targetSet m1) (userPos m1) (targetPos m1) (velocity st)
  /\ velocity st1 = v
  /\ fo_solution (snd (frame' st1 inp2))
     = firing_solution (userSet (map st1)) (targetSet (map st1))
         (userPos (map st1)) (targetPos (map st1)) v.
Proof.
  intros Hv He2 m1 st1.
  assert (H1 : fo_solution (snd (frame' st inp))
               = firing_solution (userSet m1) (targetSet m1) (userPos m1) (targetPos m1)
                   (velocity st) /\ velocity st1 = v).
  { unfold st1, frame', frame. fold m1. destruct (save_trp _ _ _ _).
    cbn [fst snd fo_solution velocity]. rewrite Hv. split; reflexivity. }
  destruct H1 as [Hsol Hvel]. split; [exact Hsol | split; [exact Hvel |]].
  clearbody st1. unfold frame', frame. rewrite He2.
  destruct (save_trp _ _ _ _). cbn [snd fo_solution poll_events fold_left].
  now rewrite Hvel.
Qed.

(** A stored entry keeps its index over one frame and over any number of
    frames of [main_loop]: the registry is only appended to. *)
Lemma frame_keeps_entry st inp i t :
  nth_error (trps st) i = Some t -> nth_error (trps (fst (frame' st inp))) i = Some t.
Proof.
  intros H. destruct (frame_trps st inp) as [E | [t' E]]; rewrite E; [exact H |].
  rewrite nth_error_app1; [exact H |]. apply nth_error_Some. congruence.
Qed.

Lemma main_loop_keeps_entry st l i t :
  nth_error (trps st) i = Some t ->
  nth_error (trps (fst (main_loop mapPixelToCoords st l))) i = Some t.
Proof.
  revert st. induction l as [| inp l IH]; intros st H; cbn [main_loop]; [exact H |].
  destruct (window_open (map st)); [| exact H].
  fold (frame' st inp). pose proof (frame_keeps_entry st inp i t H) as K.
  destruct (frame' st inp) as [st' o]. cbn [fst] in K. specialize (IH st' K).
  destruct (main_loop mapPixelToCoords st' l) as [st'' os]. exact IH.
Qed.

(** A frame whose only clicked TRP button is that of entry [i] ends with
    the entry's positions, whatever its events and its "Save TRP" did. *)
Lemma frame_select_entry st inp i t :
  nth_error (trps st) i = Some t -> (forall j, fi_select inp j = Nat.eqb j i) ->
  let m := map (fst (frame' st inp)) in
  userPos m = user t /\ targetPos m = target t /\ userSet m = true /\ targetSet m = true.
Proof.
  intros Hnth Hsel m. unfold m, frame', frame.
  set (m2 := poll_events mapPixelToCoords (map st) (fi_events inp)).
  set (nm2 := match fi_name inp with Some s => input_text s | None => trpName st end).
  assert (Hlt : (i < List.length (trps st))%nat) by (apply nth_error_Some; congruence).
  destruct (save_trp_appends (fi_save inp) (positions_of m2) nm2 (trps st)) as [Hs | [t' Hs]];
    destruct (save_trp (fi_save inp) (positions_of m2) nm2 (trps st)) as [trps2 nm2'];
    cbn [fst] in Hs; subst trps2; cbn [fst map with_positions userPos targetPos userSet
    targetSet]; unfold select_trps;
    (rewrite (select_loop_last (fi_select inp) 0 _ _ i t);
     [cbn; auto | | rewrite Hsel; apply Nat.eqb_refl |
      intros j Hj; rewrite Hsel; apply Nat.eqb_neq; lia]);
    [exact Hnth | rewrite nth_error_app1; assumption].
Qed.

(** C20: the TRP workflow across frames: a frame in which both positions
    are designated and "Save TRP" is clicked with a non-empty name (typed
    in that frame or before) stores the pair with that name under the next
    index and clears the name; after any further frames of [main_loop], a
    frame whose only clicked TRP button is that index ends with the saved
    positions, whatever the events of that frame did to them. *)
Theorem save_then_recall st inp1 mid inp2 :
  fi_save inp1 = true ->
  (forall j, fi_select inp2 j = Nat.eqb j (List.length (trps st))) ->
  let m1 := poll_events mapPixelToCoords (map st) (fi_events inp1) in
  let nm := match fi_name inp1 with Some s => input_text s | None => trpName st end in
  Nat.ltb 0 (String.length nm) = true ->
  userSet m1 = true -> targetSet m1 = true ->
  let st1 := fst (frame' st inp1) in
  let st2 := fst (frame' (fst (main_loop mapPixelToCoords st1 mid)) inp2) in
  trpName st1 = EmptyString /\
  nth_error (trps st1) (List.length (trps st)) = Some (mkTRP (userPos m1) (targetPos m1) nm) /\
  userPos (map st2) = userPos m1 /\ targetPos (map st2) = targetPos m1 /\
  userSet (map st2) = true /\ targetSet (map st2) = true.
Proof.
  intros Hs Hsel2 m1 nm Hlen Hu Ht st1 st2.
  set (T := mkTRP (userPos m1) (targetPos m1) nm).
  assert (H1 : trps st1 = trps st ++ [T] /\ trpName st1 = EmptyString).
  { assert (Hsave : save_trp true (positions_of m1) nm (trps st)
                    = (trps st ++ [T], EmptyString)).
    { unfold save_trp; cbn [positions_of p_userSet p_targetSet p_userPos p_targetPos].
      now rewrite ?Hu, ?Ht, ?Hlen. }
    unfold st1, frame', frame. fold m1 nm. rewrite Hs, Hsave. split; reflexivity. }
  destruct H1 as [Htrps1 Hname1].
  assert (Hnth : nth_error (trps st1) (List.length (trps st)) = Some T)
    by (rewrite Htrps1; apply nth_error_snoc_last).
  split; [exact Hname1 | split; [exact Hnth |]].
  exact (frame_select_entry _ inp2 _ T (main_loop_keeps_entry st1 mid _ T Hnth) Hsel2).
Qed.
End FrameTheorems.

(** The grid loop of lines 147-152 terminates: it makes 11 passes
    ([i = 0, 60, ..., 600]) and any fuel from 12 on gives the same 44
    vertices, each with both coordinates ints in [0, 600]. *)
Lemma grid_loop_terminates {F : Type} {FO : FloatOps F} (fuel : nat) :
  (grid_fuel <= fuel)%nat ->
  grid_loop fuel 0 = grid_vertices /\ List.length (@grid_vertices F FO) = 44%nat /\
  (forall v, In v (@grid_vertices F FO) ->
     exists i j, (0 <= i <= 600)%Z /\ (0 <= j <= 600)%Z /\ v = vec_of_ints i j).
Proof.
  intros Hf. split; [| split; [reflexivity |]].
  - replace fuel with (12 + (fuel - 12))%nat by (unfold grid_fuel in Hf; lia).
    reflexivity.
  - intros v Hv. cbn in Hv.
    repeat (destruct Hv as [<- | Hv]; [eexists _, _; split; [| split; [| reflexivity]]; lia |]).
    destruct Hv.
Qed.
