(* ===== verification/Run.v ===== *)
(** * Run: [main] executed on binary32 with the reference C library

    The frame model of [Frame] at the [float] instance of [Float32], with
    the library of [RefLibm] and SFML's coordinate mapping for the window
    [sf::VideoMode(1200, 700)] of [main].  The frames below are the spec's
    scenario 3 done through the UI: a left click and a right click on the
    map, the name "Hill1" typed, "Save TRP" clicked; then the window
    closed.  They evaluate by [vm_compute] and witness the theorems of
    [Frame]. *)

From Stdlib Require Import ZArith List String Lia.
From Stdlib Require Import Floats.SpecFloat.
From S2P Require Import Prelude ArtilleryMath Float32 RefLibm Solver32 Registry MapInput Frame.
Import ListNotations Binary32 RefLibm.

(** [window.mapPixelToCoords] for the 1200x700 window. *)
Definition window_map : Vector2 Z -> View float -> Vector2 float :=
  @sfml_map_pixel float (@binary32_ops ref_libm) 1200 700.

Definition no_click : nat -> bool := fun _ => false.

Definition save_hill1 : FrameInput float :=
  mkInput [(MouseButtonPressed Left, mkVector2 10%Z 10%Z);
           (MouseButtonPressed Right, mkVector2 500%Z 400%Z)]
    None (Some "Hill1"%string) true no_click.

Definition close_window : FrameInput float :=
  mkInput [(Closed, mkVector2 0%Z 0%Z)] None None false no_click.

Definition after_save : AppState float := fst (frame window_map init_state save_hill1).

(** The saved entry holds the two world points under the clicks. *)
Example scenario3_saved :
  trps after_save =
    [mkTRP (window_map (mkVector2 10%Z 10%Z) initial_view)
           (window_map (mkVector2 500%Z 400%Z) initial_view) "Hill1"%string].
Proof. vm_compute. reflexivity. Qed.

Lemma reachable_inv_witness : app_inv after_save.
Proof.
  apply (reachable_inv window_map). apply reach_frame; [apply reach_init | reflexivity].
Defined.

Lemma main_loop_stops_on_close_witness :
  List.length (snd (main_loop window_map init_state [close_window; save_hill1])) = 1%nat.
Proof.
  apply (main_loop_stops_on_close window_map init_state close_window [save_hill1]
           (mkVector2 0%Z 0%Z)); [reflexivity | left; reflexivity].
Defined.


Definition set_velocity_200 : FrameInput float :=
  mkInput [] (Some (lit 200 0)) None false no_click.

Definition idle : FrameInput float := mkInput [] None None false no_click.

Lemma velocity_edit_next_frame_witness :
  velocity (fst (frame window_map init_state set_velocity_200)) = lit 200 0.
Proof.
  exact (proj1 (proj2 (velocity_edit_next_frame window_map init_state set_velocity_200 idle
    (lit 200 0) eq_refl eq_refl))).
Defined.

(** The name typed in an earlier frame, then the clicks and "Save TRP";
    an idle frame; then the cursor clicks elsewhere but TRP 0 is recalled. *)
Definition named_hill1 : AppState float :=
  mkApp (map init_state) (lit 300 0) [] "Hill1"%string.

Definition click_and_save : FrameInput float :=
  mkInput [(MouseButtonPressed Left, mkVector2 10%Z 10%Z);
           (MouseButtonPressed Right, mkVector2 500%Z 400%Z)] None None true no_click.

Definition click_and_recall : FrameInput float :=
  mkInput [(MouseButtonPressed Left, mkVector2 300%Z 300%Z)] None None false
    (fun j => Nat.eqb j 0).

Lemma save_then_recall_witness :
  userPos (map (fst (frame window_map
    (fst (main_loop window_map (fst (frame window_map named_hill1 click_and_save)) [idle]))
    click_and_recall)))
  = window_map (mkVector2 10%Z 10%Z) initial_view.
Proof.
  refine (proj1 (proj2 (proj2 (save_then_recall window_map named_hill1 click_and_save [idle]
    click_and_recall eq_refl (fun j => eq_refl) _ _ _)))); vm_compute; reflexivity.
Defined.
